(** * options_tracker: the Notion retriever and the profit/loss aggregator

    A shallow embedding of [app.py].  The values that travel through the
    script are the JSON values the Notion client hands back, so the embedding
    starts with a small model of those values and of the Python operations the
    script applies to them (subscripting, [dict.get], iteration, truthiness).
    Exceptions are modelled by a [result] type, the pagination loop by a
    fuelled fixpoint over an explicit API state machine.

    Numbers: a JSON number is modelled by the rational it denotes ([Q]);
    rounding of binary floating point arithmetic is outside the model. *)

From Stdlib Require Import List String Ascii ZArith QArith Qabs Lia Bool Arith.
From Stdlib Require Import DecimalString DecimalNat Sorted Permutation.
Import ListNotations.
Open Scope string_scope.
Open Scope list_scope.

Set Implicit Arguments.
Set Warnings "-register-all".

(** ** Python values *)

(** What [json.loads] produces; a [dict] keeps its insertion order. *)
Inductive json : Type :=
| JNull
| JBool (b : bool)
| JNum (q : Q)
| JStr (s : string)
| JArr (l : list json)
| JObj (kvs : list (string * json)).

(** The exceptions the script can meet. *)
Inductive exn : Type :=
| KeyError (key : json)
| TypeError
| AttributeError
| APIResponseError (msg : string).

Inductive result (A : Type) : Type :=
| Ok (a : A)
| Err (e : exn).
Arguments Ok {A} a.
Arguments Err {A} e.

Definition bind {A B} (r : result A) (k : A -> result B) : result B :=
  match r with
  | Ok a => k a
  | Err e => Err e
  end.

Notation "x <- c1 ;; c2" := (bind c1 (fun x => c2))
  (at level 61, c1 at next level, right associativity).

Fixpoint mapM {A B} (f : A -> result B) (l : list A) : result (list B) :=
  match l with
  | [] => Ok []
  | a :: l' => b <- f a ;; bs <- mapM f l' ;; Ok (b :: bs)
  end.

Module Py.

(** [d.get(k)] on the entries of a dict: the first entry with key [k]. *)
Fixpoint lookup (k : string) (kvs : list (string * json)) : option json :=
  match kvs with
  | [] => None
  | (k', v) :: rest => if String.eqb k k' then Some v else lookup k rest
  end.

(** [d[k] = v]: overwrite in place when the key exists, else append. *)
Fixpoint dict_set (k : string) (v : json) (kvs : list (string * json))
  : list (string * json) :=
  match kvs with
  | [] => [(k, v)]
  | (k', v') :: rest =>
      if String.eqb k k' then (k', v) :: rest
      else (k', v') :: dict_set k v rest
  end.

(** [bool(x)] *)
Definition truthy (x : json) : bool :=
  match x with
  | JNull => false
  | JBool b => b
  | JNum q => negb (Qnum q =? 0)%Z
  | JStr s => negb (String.eqb s "")
  | JArr l => match l with [] => false | _ => true end
  | JObj kvs => match kvs with [] => false | _ => true end
  end.

(** [x[k]] for a string literal [k] *)
Definition getitem (x : json) (k : string) : result json :=
  match x with
  | JObj kvs =>
      match lookup k kvs with
      | Some v => Ok v
      | None => Err (KeyError (JStr k))
      end
  | _ => Err TypeError
  end.

(** [x[t]] where the key [t] is itself a value: only strings can be keys of
    a parsed JSON object, lists and dicts are unhashable. *)
Definition getitem_dyn (x : json) (t : json) : result json :=
  match x with
  | JObj kvs =>
      match t with
      | JStr k => getitem x k
      | JArr _ | JObj _ => Err TypeError
      | _ => Err (KeyError t)
      end
  | _ => Err TypeError
  end.

(** [x.get(k, default)] *)
Definition get (x : json) (k : string) (default : json) : result json :=
  match x with
  | JObj kvs =>
      match lookup k kvs with
      | Some v => Ok v
      | None => Ok default
      end
  | _ => Err AttributeError
  end.

Fixpoint chars (s : string) : list json :=
  match s with
  | EmptyString => []
  | String c s' => JStr (String c EmptyString) :: chars s'
  end.

(** [for e in x] *)
Definition iter (x : json) : result (list json) :=
  match x with
  | JArr l => Ok l
  | JObj kvs => Ok (map (fun kv => JStr (fst kv)) kvs)
  | JStr s => Ok (chars s)
  | _ => Err TypeError
  end.

(** [x.items()] *)
Definition items (x : json) : result (list (string * json)) :=
  match x with
  | JObj kvs => Ok kvs
  | _ => Err AttributeError
  end.

Definition is_str (x : json) (s : string) : bool :=
  match x with
  | JStr s' => String.eqb s' s
  | _ => false
  end.

Definition is_substring (k s : string) : bool :=
  match String.index 0 k s with
  | Some _ => true
  | None => false
  end.

(** [k in x] for a string literal [k] *)
Definition contains (x : json) (k : string) : result bool :=
  match x with
  | JObj kvs => Ok (match lookup k kvs with Some _ => true | None => false end)
  | JArr l => Ok (existsb (fun e => is_str e k) l)
  | JStr s => Ok (is_substring k s)
  | _ => Err TypeError
  end.

(** One element of the list handed to ["".join]. *)
Definition as_str (x : json) : result string :=
  match x with
  | JStr s => Ok s
  | _ => Err TypeError
  end.

End Py.

(** ** Notion helpers *)

(** [_plain_text]: the list comprehension runs first, then the join. *)
Definition _plain_text (rich : json) : result string :=
  frags <- Py.iter (if Py.truthy rich then rich else JArr []) ;;
  texts <- mapM (fun t => Py.get t "plain_text" (JStr "")) frags ;;
  strs <- mapM Py.as_str texts ;;
  Ok (String.concat "" strs).

(** The [for k in ("number","string","date","boolean")] loop of the formula
    arm; [None] means the loop fell through. *)
Fixpoint formula_scan (v : json) (ks : list string) : result (option json) :=
  match ks with
  | [] => Ok None
  | k :: ks' =>
      b <- Py.contains v k ;;
      if b then (x <- Py.getitem v k ;; Ok (Some x)) else formula_scan v ks'
  end.

Definition formula_keys : list string := ["number"; "string"; "date"; "boolean"].

Definition _get_prop_val (p : json) : result json :=
  t <- Py.getitem p "type" ;;
  v <- Py.getitem_dyn p t ;;
  if Py.is_str t "title" || Py.is_str t "rich_text" then
    s <- _plain_text v ;; Ok (JStr s)
  else if Py.is_str t "number" then Ok v
  else if Py.is_str t "select" then
    (if Py.truthy v then Py.getitem v "name" else Ok JNull)
  else if Py.is_str t "date" then
    (if Py.truthy v then Py.getitem v "start" else Ok JNull)
  else if Py.is_str t "formula" then
    r <- formula_scan v formula_keys ;;
    match r with
    | Some x => Ok x
    | None => Ok v
    end
  else Ok v.

(** A row is the dict built for one page. *)
Definition row : Type := list (string * json).

(** [for k, val in props.items(): row[k] = _get_prop_val(val)] *)
Fixpoint fill_row (its : list (string * json)) (r : row) : result row :=
  match its with
  | [] => Ok r
  | (k, val) :: rest =>
      x <- _get_prop_val val ;;
      fill_row rest (Py.dict_set k x r)
  end.

(** The body of [for page in resp["results"]] up to [rows.append(row)]. *)
Definition flatten_page (page : json) : result row :=
  props <- Py.getitem page "properties" ;;
  its <- Py.items props ;;
  fill_row its [].

(** ** The pagination loop *)

Section Retriever.

(** The external API as a state machine:
    [notion.databases.query(database_id, start_cursor, page_size)] answers
    with a response or raises, and moves the service to its next state. *)
Variable St : Type.
Variable query : St -> string -> json -> nat -> result json * St.
Variable database_id : string.

(** One pass of the [while True] body after the query has answered:
    the rows so far extended with this page's rows, and [Some cursor] when
    the loop goes round again. *)
Definition page_step (resp : json) (rows : list row)
  : result (list row * option json) :=
  results <- Py.getitem resp "results" ;;
  pages <- Py.iter results ;;
  new_rows <- mapM flatten_page pages ;;
  more <- Py.get resp "has_more" JNull ;;
  if negb (Py.truthy more) then Ok (rows ++ new_rows, None)
  else
    cursor <- Py.get resp "next_cursor" JNull ;;
    Ok (rows ++ new_rows, Some cursor).

(** [None] is "still looping when the fuel ran out". *)
Fixpoint fetch_loop (fuel : nat) (s : St) (cursor : json) (rows : list row)
  : option (result (list row)) :=
  match fuel with
  | O => None
  | S fuel' =>
      match query s database_id cursor 100%nat with
      | (Err e, _) => Some (Err e)
      | (Ok resp, s') =>
          match page_step resp rows with
          | Err e => Some (Err e)
          | Ok (rows', None) => Some (Ok rows')
          | Ok (rows', Some cursor') => fetch_loop fuel' s' cursor' rows'
          end
      end
  end.

(** Lines 30-38 of [fetch_notion_df]: the rows gathered when the loop
    ends. *)
Definition fetch_rows (fuel : nat) (s : St) : option (result (list row)) :=
  fetch_loop fuel s JNull [].

End Retriever.

(** ** The table: a model of the [pandas] frame the script works on *)

(** A cell of a column.  [NaN] stands for every missing value [pandas] fills
    in or produces ([NaN], [NaT]); [Obj] holds a Python object as fetched;
    [Timestamp] is a [datetime64] value (nanoseconds since the epoch) and
    [Float] a [float64] value produced by [pd.to_numeric]. *)
Inductive cell : Type :=
| NaN
| Obj (v : json)
| Timestamp (t : Z)
| Float (q : Q).

(** Column-major, as [pandas] stores it; the index is [0 .. nrows-1]. *)
Record DataFrame : Type := mkDataFrame {
  nrows : nat;
  columns : list (string * list cell)
}.

Definition has_key (k : string) (r : row) : bool :=
  match Py.lookup k r with Some _ => true | None => false end.

(** Column names in order of first appearance over the rows. *)
Definition add_names (names : list string) (r : row) : list string :=
  fold_left
    (fun acc kv => if existsb (String.eqb (fst kv)) acc then acc else acc ++ [fst kv])
    r names.

Definition column_names (rows : list row) : list string :=
  fold_left add_names rows [].

Definition cell_of (k : string) (r : row) : cell :=
  match Py.lookup k r with
  | Some v => Obj v
  | None => NaN
  end.

(** [pd.DataFrame(rows)] for a list of dicts. *)
Definition pd_DataFrame (rows : list row) : DataFrame :=
  {| nrows := List.length rows;
     columns := map (fun k => (k, map (cell_of k) rows)) (column_names rows) |}.

(** [df.empty]: some axis has length zero. *)
Definition empty (df : DataFrame) : bool :=
  (nrows df =? 0)%nat || match columns df with [] => true | _ => false end.

(** [name in df.columns] *)
Definition has_column (name : string) (df : DataFrame) : bool :=
  existsb (fun c => String.eqb (fst c) name) (columns df).

Fixpoint find_column (name : string) (cols : list (string * list cell))
  : option (list cell) :=
  match cols with
  | [] => None
  | (k, cs) :: rest => if String.eqb k name then Some cs else find_column name rest
  end.

(** [df[name]] for a column that exists (the script guards every use). *)
Definition get_column (name : string) (df : DataFrame) : list cell :=
  match find_column name (columns df) with
  | Some cs => cs
  | None => []
  end.

Fixpoint replace_column (name : string) (cs : list cell)
  (cols : list (string * list cell)) : list (string * list cell) :=
  match cols with
  | [] => []
  | (k, old) :: rest =>
      if String.eqb k name then (k, cs) :: rest
      else (k, old) :: replace_column name cs rest
  end.

(** [df[name] = series] for an existing column: the frame is updated in place,
    which here means the updated frame replaces the old one in the store. *)
Definition set_column (name : string) (cs : list cell) (df : DataFrame) : DataFrame :=
  {| nrows := nrows df; columns := replace_column name cs (columns df) |}.

(** [pd.isnull] *)
Definition is_null (c : cell) : bool :=
  match c with
  | NaN => true
  | Obj JNull => true
  | _ => false
  end.

(** [str.replace(c, "", regex=False)] for a one-character pattern. *)
Fixpoint remove_char (c : ascii) (s : string) : string :=
  match s with
  | EmptyString => EmptyString
  | String a s' =>
      if Ascii.eqb a c then remove_char c s' else String a (remove_char c s')
  end.

(** *** Currency formatting: ["${:,.2f}".format(x)] *)

(** Nearest integer, ties to even (how the [f] presentation type rounds). *)
Definition round_half_even (q : Q) : Z :=
  let n := Qnum q in
  let d := Zpos (Qden q) in
  let f := (n / d)%Z in
  match (2 * (n mod d) ?= d)%Z with
  | Lt => f
  | Gt => (f + 1)%Z
  | Eq => if Z.even f then f else (f + 1)%Z
  end.

(** The value in hundredths, sign apart. *)
Definition cents (x : Q) : Z := round_half_even (Qabs x * 100).

Definition digit_char (n : Z) : ascii :=
  ascii_of_nat (48 + Z.to_nat (n mod 10)).

Definition decimal (n : Z) : string :=
  NilZero.string_of_uint (N.to_uint (Z.to_N n)).

(** The [,] option, on the digits written backwards: a comma after every
    third digit that has a digit after it. *)
Fixpoint commas_rev (l : list ascii) : list ascii :=
  match l with
  | a :: b :: c :: ((_ :: _) as rest) => a :: b :: c :: ","%char :: commas_rev rest
  | _ => l
  end.

Definition with_commas (s : string) : string :=
  string_of_list_ascii (rev (commas_rev (rev (list_ascii_of_string s)))).

Definition sign_of (x : Q) : string :=
  if Qle_bool 0 x then "" else "-".

(** ["{:,.2f}".format(x)] *)
Definition format_2f (x : Q) : string :=
  let c := cents x in
  (sign_of x ++ with_commas (decimal (c / 100)) ++ "."
   ++ String (digit_char (c / 10)) (String (digit_char c) ""))%string.

Definition format_currency (x : Q) : string := ("$" ++ format_2f x)%string.

(** The [lambda] of the annotation column. *)
Definition profit_loss_label (x : option Q) : string :=
  match x with
  | Some q => format_currency q
  | None => ""
  end.

(** ** Coercion and aggregation *)

(** One output unit of the aggregation: the three columns of [agg_by_exp]. *)
Record AggregatedPoint : Type := mkPoint {
  Expiration : Z;
  Profit_Loss : Q;
  Profit_Loss_label : string
}.

Record annotation : Type := mkAnnotation {
  ann_x : Z;
  ann_y : Q;
  ann_text : string
}.

Record figure : Type := mkFigure {
  fig_title : string;
  xaxis_title : string;
  yaxis_title : string;
  line : list (Z * Q);
  annotations : list annotation
}.

(** What the page shows. *)
Inductive ui_event : Type :=
| StWarning (msg : string)
| StError (e : exn)
| StInfo (msg : string)
| StPlotlyChart (fig : figure).

(** The script's variables when it stops. *)
Record session : Type := mkSession {
  events : list ui_event;
  pnl_df : option DataFrame;
  agg_by_exp : option (list AggregatedPoint)
}.

Definition config_message : string :=
  "Add NOTION_TOKEN and NOTION_DATABASE_ID in Secrets (or fill Database ID above).".
Definition empty_message : string :=
  "No rows yet. Add items to your Notion database.".
Definition schema_message : string :=
  "This database needs columns named **Expiration** (Date) and **Profit/Loss** (Number).".

(** Rows of a column kept by a boolean mask. *)
Fixpoint select (A : Type) (mask : list bool) (cs : list A) : list A :=
  match mask, cs with
  | b :: mask', c :: cs' => if b then c :: select mask' cs' else select mask' cs'
  | _, _ => []
  end.

(** [df.dropna(subset=[name])]: a new frame, the rows whose [name] cell is
    null left out of every column. *)
Definition dropna (name : string) (df : DataFrame) : DataFrame :=
  let mask := map (fun c => negb (is_null c)) (get_column name df) in
  {| nrows := List.length (filter (fun b => b) mask);
     columns := map (fun kc => (fst kc, select mask (snd kc))) (columns df) |}.

(** The group key of a cell of a [datetime64] column. *)
Definition key_of (c : cell) : option Z :=
  match c with
  | Timestamp t => Some t
  | _ => None
  end.

(** The number a cell of a numeric ([int64], [float64], [bool]) column
    contributes to a sum; [None] is skipped. *)
Definition numeric (c : cell) : option Q :=
  match c with
  | Float q => Some q
  | Obj (JNum q) => Some q
  | Obj (JBool b) => Some (if b then 1 else 0)
  | _ => None
  end.

(** The (key, value) pairs [groupby] sees; rows with a null key are dropped. *)
Fixpoint group_rows (keys vals : list cell) : list (Z * option Q) :=
  match keys, vals with
  | k :: keys', v :: vals' =>
      match key_of k with
      | Some t => (t, numeric v) :: group_rows keys' vals'
      | None => group_rows keys' vals'
      end
  | _, _ => []
  end.

Fixpoint insert_key (k : Z) (l : list Z) : list Z :=
  match l with
  | [] => [k]
  | h :: t =>
      if (k <? h)%Z then k :: l
      else if (k =? h)%Z then l
      else h :: insert_key k t
  end.

(** The distinct group keys in ascending order ([sort=True]). *)
Definition group_keys (rs : list (Z * option Q)) : list Z :=
  fold_right insert_key [] (map fst rs).

(** [sum] with [skipna]: nulls are left out, the empty sum is 0. *)
Definition sum_skipna (vs : list (option Q)) : Q :=
  fold_left (fun acc v => match v with Some q => acc + q | None => acc end) vs 0.

Definition group_values (k : Z) (rs : list (Z * option Q)) : list (option Q) :=
  map snd (filter (fun r => (fst r =? k)%Z) rs).

(** [.groupby(key, as_index=False)[value].sum()] *)
Definition groupby_sum (rs : list (Z * option Q)) : list (Z * Q) :=
  map (fun k => (k, sum_skipna (group_values k rs))) (group_keys rs).

Fixpoint insert_by_key (p : Z * Q) (l : list (Z * Q)) : list (Z * Q) :=
  match l with
  | [] => [p]
  | h :: t => if (fst p <=? fst h)%Z then p :: l else h :: insert_by_key p t
  end.

(** [.sort_values(key)]: ascending, stable. *)
Definition sort_values (l : list (Z * Q)) : list (Z * Q) :=
  fold_right insert_by_key [] l.

Section Script.

(** [pandas] parsers, taken as given.  [to_datetime col c] is what
    [pd.to_datetime(col, errors="coerce")] yields at a non-null cell [c] of
    the column [col] ([None] is [NaT]); [to_numeric s] is what
    [pd.to_numeric(_, errors="coerce")] yields for the string [s] ([None]
    is [NaN]); [is_object col] tells whether the column's inferred dtype is
    [object]; [py_str c] is [str(x)] for a cell that is not a string. *)
Variable to_datetime : list cell -> cell -> option Z.
Variable to_numeric : string -> option Q.
Variable is_object : list cell -> bool.
Variable py_str : cell -> string.

Definition to_datetime_series (cs : list cell) : list cell :=
  map (fun c =>
         if is_null c then NaN
         else match to_datetime cs c with
              | Some t => Timestamp t
              | None => NaN
              end) cs.

(** [.astype(str)] on one cell *)
Definition astype_str (c : cell) : string :=
  match c with
  | Obj (JStr s) => s
  | _ => py_str c
  end.

(** [.astype(str).str.replace(",", "").str.replace("$", "")] on one cell *)
Definition strip_currency (c : cell) : string :=
  remove_char "$"%char (remove_char ","%char (astype_str c)).

Definition to_numeric_cell (s : string) : cell :=
  match to_numeric s with
  | Some q => Float q
  | None => NaN
  end.

(** Lines 66-67 *)
Definition coerce_expiration (df : DataFrame) : DataFrame :=
  if has_column "Expiration" df then
    set_column "Expiration" (to_datetime_series (get_column "Expiration" df)) df
  else df.

(** Lines 68-72 *)
Definition coerce_profit_loss (df : DataFrame) : DataFrame :=
  if has_column "Profit/Loss" df && is_object (get_column "Profit/Loss" df) then
    set_column "Profit/Loss"
      (map (fun c => to_numeric_cell (strip_currency c)) (get_column "Profit/Loss" df))
      df
  else df.

Definition coerce (df : DataFrame) : DataFrame :=
  coerce_profit_loss (coerce_expiration df).

(** Lines 76-85: the derived frame [agg_by_exp]. *)
Definition aggregate (df : DataFrame) : list AggregatedPoint :=
  let valid := dropna "Expiration" df in
  let sums :=
    sort_values
      (groupby_sum
         (group_rows (get_column "Expiration" valid)
                     (get_column "Profit/Loss" valid))) in
  map (fun p => mkPoint (fst p) (snd p) (profit_loss_label (Some (snd p)))) sums.

(** Lines 87-105 *)
Definition make_figure (agg : list AggregatedPoint) : figure :=
  {| fig_title := "Weekly Profit and Loss";
     xaxis_title := "Expiration";
     yaxis_title := "Total Profit/Loss";
     line := map (fun p => (Expiration p, Profit_Loss p)) agg;
     annotations :=
       map (fun p => mkAnnotation (Expiration p) (Profit_Loss p) (Profit_Loss_label p))
           agg |}.

(** Lines 61-109: what the script does with the fetched frame. *)
Definition present (df : DataFrame) : session :=
  if empty df then
    {| events := [StInfo empty_message]; pnl_df := Some df; agg_by_exp := None |}
  else
    let df' := coerce df in
    if has_column "Expiration" df' && has_column "Profit/Loss" df' then
      let agg := aggregate df' in
      {| events := [StPlotlyChart (make_figure agg)];
         pnl_df := Some df';
         agg_by_exp := Some agg |}
    else
      {| events := [StWarning schema_message]; pnl_df := Some df'; agg_by_exp := None |}.

Variable St : Type.
Variable query : St -> string -> json -> nat -> result json * St.

(** [fetch_notion_df(database_id)]: the gathered rows as a frame. *)
Definition fetch_notion_df (database_id : string) (fuel : nat) (s : St)
  : option (result DataFrame) :=
  match fetch_rows query database_id fuel s with
  | None => None
  | Some (Err e) => Some (Err e)
  | Some (Ok rows) => Some (Ok (pd_DataFrame rows))
  end.

Definition falsy_token (tok : option string) : bool :=
  match tok with
  | None => true
  | Some s => String.eqb s ""
  end.

(** The whole script for one refresh; [None] when the fetch is still
    looping after [fuel] queries. *)
Definition app (NOTION_TOKEN : option string) (db_id_input : string)
  (fuel : nat) (s : St) : option session :=
  if String.eqb db_id_input "" || falsy_token NOTION_TOKEN then
    Some {| events := [StWarning config_message]; pnl_df := None; agg_by_exp := None |}
  else
    match fetch_notion_df db_id_input fuel s with
    | None => None
    | Some (Err e) =>
        Some {| events := [StError e]; pnl_df := None; agg_by_exp := None |}
    | Some (Ok df) => Some (present df)
    end.

End Script.

(** ** A simulated API and executable instances of the [pandas] parsers *)

Module Sim.

(** The cursor handed out for page [k]: an opaque string token. *)
Definition cursor_of (k : nat) : string :=
  NilEmpty.string_of_uint (Nat.to_uint k).

Definition cursor_offset (cursor : json) : option nat :=
  match cursor with
  | JNull => Some 0%nat
  | JStr s => option_map Nat.of_uint (NilEmpty.uint_of_string s)
  | _ => None
  end.

(** A database holding [recs]: page [k] carries the records
    [k*page_size ..], [has_more] tells whether records remain after it, and
    [next_cursor] names the next page.  A cursor the service never handed
    out is refused. *)
Definition query (recs : list json) (s : unit) (database_id : string)
  (cursor : json) (page_size : nat) : result json * unit :=
  match cursor_offset cursor with
  | None => (Err (APIResponseError "start_cursor is not valid"), s)
  | Some k =>
      let page := firstn page_size (skipn (k * page_size) recs) in
      let more := ((k + 1) * page_size <? List.length recs)%nat in
      (Ok (JObj [("object", JStr "list");
                 ("results", JArr page);
                 ("has_more", JBool more);
                 ("next_cursor", if more then JStr (cursor_of (k + 1)) else JNull)]),
       s)
  end.

(** A service that answers every query with an empty page and
    [has_more = true]. *)
Definition endless_empty_pages (s : unit) (database_id : string)
  (cursor : json) (page_size : nat) : result json * unit :=
  (Ok (JObj [("object", JStr "list");
             ("results", JArr []);
             ("has_more", JBool true);
             ("next_cursor", JStr "next")]),
   s).

(** Record number [i] of a test database: a page with a title, a date and
    a number property. *)
Definition record (i : nat) : json :=
  JObj [("id", JStr (cursor_of i));
        ("properties",
         JObj [("Name", JObj [("type", JStr "title");
                              ("title", JArr [JObj [("plain_text", JStr (cursor_of i))]])]);
               ("Expiration", JObj [("type", JStr "date");
                                    ("date", JObj [("start", JStr "2024-01-05")])]);
               ("Profit/Loss", JObj [("type", JStr "number");
                                     ("number", JNum (inject_Z (Z.of_nat i)))])])].

Definition records (n : nat) : list json := map record (seq 0 n).

(** *** Instances of the parsers, on the fragment the examples use *)

Definition digit_val (c : ascii) : option Z :=
  let n := Z.of_nat (nat_of_ascii c) in
  if ((48 <=? n) && (n <=? 57))%Z then Some (n - 48)%Z else None.

Fixpoint digits_val (l : list ascii) (acc : Z) : option Z :=
  match l with
  | [] => Some acc
  | c :: l' =>
      match digit_val c with
      | Some d => digits_val l' (10 * acc + d)%Z
      | None => None
      end
  end.

Definition is_leap (y : Z) : bool :=
  ((y mod 4 =? 0) && (negb (y mod 100 =? 0) || (y mod 400 =? 0)))%Z.

Definition days_in_month (y m : Z) : Z :=
  if (m =? 2)%Z then (if is_leap y then 29 else 28)%Z
  else if ((m =? 4) || (m =? 6) || (m =? 9) || (m =? 11))%Z then 30%Z
  else 31%Z.

(** Days since 1970-01-01 of a proleptic Gregorian date. *)
Definition days_from_civil (y m d : Z) : Z :=
  let y' := (if m <=? 2 then y - 1 else y)%Z in
  let era := (y' / 400)%Z in
  let yoe := (y' - era * 400)%Z in
  let mp := (if m >? 2 then m - 3 else m + 9)%Z in
  let doy := ((153 * mp + 2) / 5 + d - 1)%Z in
  let doe := (yoe * 365 + yoe / 4 - yoe / 100 + doy)%Z in
  (era * 146097 + doe - 719468)%Z.

Definition nanoseconds_per_day : Z := 86400000000000.

(** ISO dates [YYYY-MM-DD]; anything else is [NaT]. *)
Definition iso_to_datetime (col : list cell) (c : cell) : option Z :=
  match c with
  | Obj (JStr s) =>
      match list_ascii_of_string s with
      | [y1; y2; y3; y4; "-"%char; m1; m2; "-"%char; d1; d2] =>
          match digits_val [y1; y2; y3; y4] 0, digits_val [m1; m2] 0,
                digits_val [d1; d2] 0 with
          | Some y, Some m, Some d =>
              if ((1 <=? m) && (m <=? 12) && (1 <=? d) && (d <=? days_in_month y m))%Z
              then Some (days_from_civil y m d * nanoseconds_per_day)%Z
              else None
          | _, _, _ => None
          end
      | _ => None
      end
  | _ => None
  end.

Fixpoint split_at_dot (l : list ascii) : list ascii * option (list ascii) :=
  match l with
  | [] => ([], None)
  | c :: l' =>
      if Ascii.eqb c "."%char then ([], Some l')
      else let (a, b) := split_at_dot l' in (c :: a, b)
  end.

Definition unsigned_decimal (l : list ascii) : option Q :=
  let (ip, fp) := split_at_dot l in
  match ip, fp with
  | [], _ => None
  | _, Some [] => None
  | _, None => option_map inject_Z (digits_val ip 0)
  | _, Some f =>
      match digits_val (ip ++ f) 0 with
      | Some n => Some (n # Pos.pow 10 (Pos.of_nat (List.length f)))
      | None => None
      end
  end.

(** Plain decimal literals [[-]digits[.digits]]; anything else is [NaN]. *)
Definition decimal_to_numeric (s : string) : option Q :=
  match list_ascii_of_string s with
  | "-"%char :: l => option_map Qopp (unsigned_decimal l)
  | l => unsigned_decimal l
  end.

Definition is_number (c : cell) : bool :=
  match c with
  | Obj (JNum _) | Float _ => true
  | _ => false
  end.

Definition is_bool (c : cell) : bool :=
  match c with
  | Obj (JBool _) => true
  | _ => false
  end.

(** A column is numeric when it holds numbers and nulls with at least one
    number, boolean when it holds booleans only; otherwise [object]. *)
Definition infer_object (col : list cell) : bool :=
  negb ((forallb (fun c => is_number c || is_null c) col && existsb is_number col)
        || (forallb is_bool col && negb (List.length col =? 0)%nat)).

Definition py_str_sample (c : cell) : string :=
  match c with
  | NaN => "nan"
  | Obj JNull => "None"
  | Obj (JBool true) => "True"
  | Obj (JBool false) => "False"
  | Obj (JStr s) => s
  | _ => "<object>"
  end.

End Sim.

(** ** Definitions used to state the properties *)

(** *** What a response says *)

(** The rows a response carries: the records under "results", flattened. *)
Definition response_rows (resp : json) : result (list row) :=
  results <- Py.getitem resp "results" ;;
  pages <- Py.iter results ;;
  mapM flatten_page pages.

(** The response asks for another query: it has a has_more entry and the
    entry is truthy. *)
Definition has_more_set (kvs : list (string * json)) : bool :=
  match Py.lookup "has_more" kvs with
  | Some more => Py.truthy more
  | None => false
  end.

(** The cursor a response hands out, [None] when it has none. *)
Definition next_cursor_of (kvs : list (string * json)) : json :=
  match Py.lookup "next_cursor" kvs with
  | Some next => next
  | None => JNull
  end.

(** *** Chains of queries *)

Section Chains.

Variable St : Type.
Variable query : St -> string -> json -> nat -> result json * St.
Variable db : string.

(** [serves s c pages]: queried in state [s] with cursor [c], the service
    answers with the first of [pages]; has_more is set exactly when pages
    remain, and the rest is served from the next state with the next
    cursor. *)
Inductive serves : St -> json -> list (list json) -> Prop :=
| serves_last s c page kvs s' :
    query s db c 100%nat = (Ok (JObj kvs), s') ->
    Py.lookup "results" kvs = Some (JArr page) ->
    Py.lookup "has_more" kvs = Some (JBool false) ->
    serves s c [page]
| serves_more s c page pages kvs s' c' :
    query s db c 100%nat = (Ok (JObj kvs), s') ->
    Py.lookup "results" kvs = Some (JArr page) ->
    Py.lookup "has_more" kvs = Some (JBool true) ->
    Py.lookup "next_cursor" kvs = Some c' ->
    serves s' c' pages ->
    serves s c (page :: pages).

(** The chain of queries started in state [s] with cursor [c] comes to an
    end: a query raises, a response cannot be read, or a response's has_more
    flag is falsy or absent.  The chain goes on, with the response's next
    cursor, exactly when has_more is set. *)
Inductive halts : St -> json -> Prop :=
| halts_raise s c e s' :
    query s db c 100%nat = (Err e, s') -> halts s c
| halts_unreadable s c resp s' e :
    query s db c 100%nat = (Ok resp, s') ->
    response_rows resp = Err e -> halts s c
| halts_last s c kvs s' new_rows :
    query s db c 100%nat = (Ok (JObj kvs), s') ->
    response_rows (JObj kvs) = Ok new_rows ->
    has_more_set kvs = false -> halts s c
| halts_next s c kvs s' new_rows :
    query s db c 100%nat = (Ok (JObj kvs), s') ->
    response_rows (JObj kvs) = Ok new_rows ->
    has_more_set kvs = true ->
    halts s' (next_cursor_of kvs) -> halts s c.

(** The chain of queries started in state [s] with cursor [c] meets a query
    that raises [e], every page before it being served with has_more set and
    flattened without error. *)
Inductive raises : St -> json -> exn -> Prop :=
| raises_now s c e s' :
    query s db c 100%nat = (Err e, s') -> raises s c e
| raises_later s c kvs s' page page_rows more c' e :
    query s db c 100%nat = (Ok (JObj kvs), s') ->
    Py.lookup "results" kvs = Some (JArr page) ->
    mapM flatten_page page = Ok page_rows ->
    Py.lookup "has_more" kvs = Some more ->
    Py.truthy more = true ->
    c' = match Py.lookup "next_cursor" kvs with Some n => n | None => JNull end ->
    raises s' c' e ->
    raises s c e.

End Chains.

(** *** The simulated database *)

Definition pages_needed (n : nat) : nat := Nat.max 1 ((n + 99) / 100).

Definition expected_row (i : nat) : row :=
  [("Name", JStr (Sim.cursor_of i));
   ("Expiration", JStr "2024-01-05");
   ("Profit/Loss", JNum (inject_Z (Z.of_nat i)))].

(** A database whose pages have no Profit/Loss property. *)
Definition record_without_profit_loss : json :=
  JObj [("id", JStr "1");
        ("properties",
         JObj [("Name", JObj [("type", JStr "title");
                              ("title", JArr [JObj [("plain_text", JStr "SPY")]])]);
               ("Expiration", JObj [("type", JStr "date");
                                    ("date", JObj [("start", JStr "2024-01-05")])])])].

(** *** Rich text *)

(** A rich-text fragment: an object whose [plain_text], when it has one, is a
    string. *)
Definition is_fragment (f : json) : bool :=
  match f with
  | JObj kvs =>
      match Py.lookup "plain_text" kvs with
      | Some (JStr _) | None => true
      | Some _ => false
      end
  | _ => false
  end.

Definition plain_text_of (f : json) : string :=
  match f with
  | JObj kvs =>
      match Py.lookup "plain_text" kvs with
      | Some (JStr s) => s
      | _ => ""
      end
  | _ => ""
  end.

(** *** The shape of a formatted amount *)





(** *** Rows and groups *)

Fixpoint remove_nth (A : Type) (i : nat) (l : list A) {struct l} : list A :=
  match l, i with
  | [], _ => []
  | _ :: t, O => t
  | h :: t, S i' => h :: remove_nth i' t
  end.

(** The frame without the row at position [i]. *)
Definition drop_row (i : nat) (df : DataFrame) : DataFrame :=
  {| nrows := pred (nrows df);
     columns := map (fun kc => (fst kc, remove_nth i (snd kc))) (columns df) |}.

(** The pairs the grouping sees, from the two columns of the frame. *)
Definition valid_pairs (exps vals : list cell) : list (Z * option Q) :=
  let mask := map (fun c => negb (is_null c)) exps in
  group_rows (select mask exps) (select mask vals).

Definition point_of (rs : list (Z * option Q)) (k : Z) : AggregatedPoint :=
  let total := sum_skipna (group_values k rs) in
  mkPoint k total (format_currency total).

(** *** Example tables *)

(** The table of the aggregation example. *)
Definition example_rows : list row :=
  [[("Expiration", JStr "2024-01-05"); ("Profit/Loss", JNum 100)];
   [("Expiration", JStr "2024-01-05"); ("Profit/Loss", JNum (-30))];
   [("Expiration", JStr "2024-01-12"); ("Profit/Loss", JNum 50)]].

Definition example_dates : list cell :=
  [Obj (JStr "2024-01-05"); Obj (JStr "2024-01-05"); Obj (JStr "2024-01-12")].

(** A table whose second row has an Expiration that is not a date. *)
Definition table_with_bad_date : DataFrame :=
  pd_DataFrame
    [[("Expiration", JStr "2024-01-12"); ("Profit/Loss", JStr "$1,234.56")];
     [("Expiration", JStr "soon"); ("Profit/Loss", JStr "-30")];
     [("Expiration", JStr "2024-01-05"); ("Profit/Loss", JStr "50")]].

(** *** Services used in the examples of failures *)

(** A service that serves one page of [recs] with has_more set and refuses
    every later query. *)
Definition flaky_query (recs : list json) (s : unit) (database_id : string)
  (cursor : json) (page_size : nat) : result json * unit :=
  match cursor with
  | JNull =>
      (Ok (JObj [("object", JStr "list");
                 ("results", JArr (firstn page_size recs));
                 ("has_more", JBool true);
                 ("next_cursor", JStr "1")]), s)
  | _ => (Err (APIResponseError "rate limited"), s)
  end.

(** The simulated service, answering only queries for database ["db"] with
    page size 100. *)
Definition gated_query (recs : list json) (s : unit) (database_id : string)
  (cursor : json) (page_size : nat) : result json * unit :=
  if (page_size =? 100)%nat && String.eqb database_id "db"
  then Sim.query recs s database_id cursor page_size
  else (Err (APIResponseError "unexpected query"), s).

(** A page whose property bag is empty. *)
Definition record_with_no_property : json :=
  JObj [("id", JStr "3"); ("properties", JObj [])].

Definition record_without_properties : json :=
  JObj [("id", JStr "2"); ("object", JStr "page")].

(** *** Shape of a frame *)

(** Distinct column names, and every column as long as the index. *)
Definition well_formed (df : DataFrame) : Prop :=
  NoDup (map fst (columns df))
  /\ Forall (fun kc => List.length (snd kc) = nrows df) (columns df).

(** The characters the Profit/Loss coercion keeps. *)
Definition kept_char (a : ascii) : bool :=
  negb (Ascii.eqb a ","%char) && negb (Ascii.eqb a "$"%char).

(** The sum of the non-null values, written from the right. *)
Fixpoint total (vs : list (option Q)) : Q :=
  match vs with
  | [] => 0
  | Some q :: vs' => q + total vs'
  | None :: vs' => total vs'
  end.

(** The sum of [f] over the keys [ks]. *)
Fixpoint sum_over (ks : list Z) (f : Z -> Q) : Q :=
  match ks with
  | [] => 0
  | k :: ks' => f k + sum_over ks' f
  end.

(** *** Amounts that float64 and int64 add without rounding *)

(** A null, or a number written as an integer. *)
Definition integral (v : option Q) : bool :=
  match v with
  | Some q => (Qden q =? 1)%positive
  | None => true
  end.

(** The sum of the absolute values of the numerators. *)
Fixpoint magnitude (vs : list (option Q)) : Z :=
  match vs with
  | [] => 0
  | Some q :: vs' => Z.abs (Qnum q) + magnitude vs'
  | None :: vs' => magnitude vs'
  end.

(** The sum of the numerators. *)
Fixpoint integer_total (vs : list (option Q)) : Z :=
  match vs with
  | [] => 0
  | Some q :: vs' => Qnum q + integer_total vs'
  | None :: vs' => integer_total vs'
  end.

(** 2^53: integers up to this size are float64 values. *)
Definition exact_range : Z := 9007199254740992.

(** * Properties *)

(** ** Pagination *)

Lemma mapM_app (A B : Type) (f : A -> result B) (l1 l2 : list A) :
  mapM f (l1 ++ l2) = (a <- mapM f l1 ;; b <- mapM f l2 ;; Ok (a ++ b)).
Proof.
  induction l1 as [|x l1 IH]; simpl.
  - destruct (mapM f l2); reflexivity.
  - destruct (f x); simpl; [|reflexivity].
    rewrite IH. destruct (mapM f l1); simpl; [|reflexivity].
    destruct (mapM f l2); reflexivity.
Qed.

Lemma mapM_length (A B : Type) (f : A -> result B) (l : list A) (bs : list B) :
  mapM f l = Ok bs -> List.length bs = List.length l.
Proof.
  revert bs; induction l as [|x l IH]; simpl; intros bs H.
  - injection H as <-. reflexivity.
  - destruct (f x); simpl in H; [|discriminate].
    destruct (mapM f l); simpl in H; [|discriminate].
    injection H as <-. simpl. f_equal. apply IH. reflexivity.
Qed.

Lemma mapM_nth (A B : Type) (f : A -> result B) (l : list A) (bs : list B) :
  mapM f l = Ok bs ->
  forall i a, nth_error l i = Some a ->
  exists b, nth_error bs i = Some b /\ f a = Ok b.
Proof.
  revert bs; induction l as [|x l IH]; simpl; intros bs H i a Hi.
  - destruct i; discriminate.
  - destruct (f x) eqn:Hx; simpl in H; [|discriminate].
    destruct (mapM f l) eqn:Hl; simpl in H; [|discriminate].
    injection H as <-. destruct i as [|i]; simpl in *.
    + injection Hi as <-. eauto.
    + eapply IH; eauto.
Qed.

Lemma cursor_offset_of (k : nat) :
  Sim.cursor_offset (JStr (Sim.cursor_of k)) = Some k.
Proof.
  unfold Sim.cursor_offset, Sim.cursor_of.
  rewrite NilEmpty.usu. simpl. f_equal. apply DecimalNat.Unsigned.of_to.
Qed.

(** What one pass of the loop makes of a response shaped like the service's. *)
Lemma page_step_list (page : list json) (more : bool) (next : json) (rows : list row) :
  page_step (JObj [("object", JStr "list"); ("results", JArr page);
                   ("has_more", JBool more); ("next_cursor", next)]) rows
  = (new_rows <- mapM flatten_page page ;;
     Ok (rows ++ new_rows, if more then Some next else None)).
Proof.
  unfold page_step. cbn.
  destruct (mapM flatten_page page); cbn; [|reflexivity].
  destruct more; reflexivity.
Qed.

Lemma sim_query_at (recs : list json) (db : string) (cursor : json) (k : nat) :
  Sim.cursor_offset cursor = Some k ->
  Sim.query recs tt db cursor 100
  = (Ok (JObj [("object", JStr "list");
               ("results", JArr (firstn 100 (skipn (k * 100) recs)));
               ("has_more", JBool ((k + 1) * 100 <? List.length recs)%nat);
               ("next_cursor",
                if ((k + 1) * 100 <? List.length recs)%nat
                then JStr (Sim.cursor_of (k + 1)) else JNull)]), tt).
Proof. intros Hc. unfold Sim.query. rewrite Hc. reflexivity. Qed.

Lemma fetch_loop_sim (recs : list json) (db : string) :
  forall fuel k cursor rows,
    Sim.cursor_offset cursor = Some k ->
    (pages_needed (List.length recs - k * 100) <= fuel)%nat ->
    fetch_loop (Sim.query recs) db fuel tt cursor rows
    = Some (new_rows <- mapM flatten_page (skipn (k * 100) recs) ;;
            Ok (rows ++ new_rows)).
Proof.
  unfold pages_needed.
  induction fuel as [|fuel IH]; intros k cursor rows Hc Hfuel; [lia|].
  cbn [fetch_loop]. rewrite (sim_query_at recs db cursor Hc), page_step_list.
  rewrite <- (firstn_skipn 100 (skipn (k * 100) recs)) at 2.
  rewrite mapM_app, skipn_skipn.
  destruct (mapM flatten_page (firstn 100 (skipn (k * 100) recs))) as [page_rows|e];
    cbn [bind]; [|reflexivity].
  replace (100 + k * 100)%nat with ((k + 1) * 100)%nat by lia.
  destruct (Nat.ltb_spec ((k + 1) * 100) (List.length recs)) as [Hlt|Hge].
  - rewrite (IH (k + 1)%nat).
    + destruct (mapM flatten_page (skipn ((k + 1) * 100) recs)); cbn [bind];
        [rewrite app_assoc|]; reflexivity.
    + apply cursor_offset_of.
    + assert (H : ((List.length recs - k * 100 + 99) / 100
                   = S ((List.length recs - (k + 1) * 100 + 99) / 100))%nat).
      { replace (List.length recs - k * 100 + 99)%nat
          with (1 * 100 + (List.length recs - (k + 1) * 100 + 99))%nat by lia.
        rewrite Nat.div_add_l by lia. reflexivity. }
      assert (H1 : (1 <= (List.length recs - (k + 1) * 100 + 99) / 100)%nat)
        by (apply Nat.div_le_lower_bound; lia).
      lia.
  - rewrite (skipn_all2 recs) by lia. cbn [mapM bind].
    rewrite app_nil_r. reflexivity.
Qed.

(** Whatever the records, the fetch from the simulated service returns after
    [pages_needed N] queries with the records flattened in order, or with the
    first flattening error. *)
Lemma fetch_rows_sim (recs : list json) (db : string) (extra : nat) :
  fetch_rows (Sim.query recs) db (pages_needed (List.length recs) + extra) tt
  = Some (mapM flatten_page recs).
Proof.
  unfold fetch_rows.
  rewrite (@fetch_loop_sim recs db _ 0%nat JNull []); try reflexivity.
  - simpl. destruct (mapM flatten_page recs); reflexivity.
  - simpl. rewrite Nat.sub_0_r. lia.
Qed.

(** ** Any service that serves its records page by page *)

Section Paged.

Variable St : Type.
Variable query : St -> string -> json -> nat -> result json * St.
Variable db : string.

Lemma page_step_paged kvs page (more : bool) rows :
  Py.lookup "results" kvs = Some (JArr page) ->
  Py.lookup "has_more" kvs = Some (JBool more) ->
  page_step (JObj kvs) rows
  = (new_rows <- mapM flatten_page page ;;
     if more then
       Ok (rows ++ new_rows,
           Some (match Py.lookup "next_cursor" kvs with Some c => c | None => JNull end))
     else Ok (rows ++ new_rows, None)).
Proof.
  intros Hr Hm. unfold page_step, Py.getitem, Py.get. rewrite Hr, Hm.
  cbn [bind Py.iter]. destruct (mapM flatten_page page); cbn [bind]; [|reflexivity].
  destruct more; cbn [Py.truthy negb]; [|reflexivity].
  destruct (Py.lookup "next_cursor" kvs); reflexivity.
Qed.

Lemma fetch_loop_serves s c pages :
  serves query db s c pages ->
  forall extra acc,
    fetch_loop query db (List.length pages + extra) s c acc
    = Some (new_rows <- mapM flatten_page (List.concat pages) ;; Ok (acc ++ new_rows)).
Proof.
  induction 1 as [s c page kvs s' Hq Hr Hm
                 |s c page pages kvs s' c' Hq Hr Hm Hc Hs IH]; intros extra acc.
  - cbn [List.length Nat.add fetch_loop List.concat]. rewrite Hq.
    rewrite (page_step_paged _ acc Hr Hm), app_nil_r.
    destruct (mapM flatten_page page); reflexivity.
  - cbn [List.length Nat.add fetch_loop List.concat]. rewrite Hq.
    rewrite (page_step_paged _ acc Hr Hm), Hc, mapM_app.
    destruct (mapM flatten_page page) as [page_rows|]; cbn [bind]; [|reflexivity].
    rewrite IH.
    destruct (mapM flatten_page (List.concat pages)); cbn [bind];
      [rewrite app_assoc|]; reflexivity.
Qed.

End Paged.

(** C1 (pagination completeness).  A simulated service holding N records
    serves them in pages of 100 with a has_more flag and a next cursor; when
    every record flattens, [fetch_notion_df] returns after
    max 1 (ceil (N/100)) queries with a table of exactly N rows, row i being
    the flattening of record i; this holds for every N.  The same table comes
    back from any service that serves the records page by page, whatever its
    cursors and page sizes. *)
Theorem fetch_pagination_complete
  (recs : list json) (db : string) (extra : nat) (rows : list row)
  (Hflat : mapM flatten_page recs = Ok rows) :
  fetch_notion_df (Sim.query recs) db (pages_needed (List.length recs) + extra) tt
  = Some (Ok (pd_DataFrame rows))
  /\ List.length rows = List.length recs
  /\ nrows (pd_DataFrame rows) = List.length recs
  /\ (forall i r, nth_error recs i = Some r ->
      exists ri, nth_error rows i = Some ri /\ flatten_page r = Ok ri)
  /\ (forall (St : Type) (query : St -> string -> json -> nat -> result json * St)
             (s : St) (pages : list (list json)),
        serves query db s JNull pages -> List.concat pages = recs ->
        fetch_notion_df query db (List.length pages + extra) s
        = Some (Ok (pd_DataFrame rows))).
Proof.
  unfold fetch_notion_df.
  split; [rewrite fetch_rows_sim, Hflat; reflexivity|].
  pose proof (mapM_length _ _ Hflat) as Hlen.
  split; [exact Hlen|]. split; [exact Hlen|].
  split; [intros i r Hi; eapply mapM_nth; eauto|].
  intros St query s pages Hs Hp. unfold fetch_rows.
  rewrite (fetch_loop_serves Hs), Hp, Hflat. reflexivity.
Qed.

Lemma fetch_pagination_complete_witness :
  fetch_notion_df (Sim.query (Sim.records 101)) "db"
    (pages_needed (List.length (Sim.records 101)) + 0) tt
  = Some (Ok (pd_DataFrame (map expected_row (seq 0 101))))
  /\ List.length (map expected_row (seq 0 101)) = List.length (Sim.records 101)
  /\ nrows (pd_DataFrame (map expected_row (seq 0 101))) = List.length (Sim.records 101)
  /\ (forall i r, nth_error (Sim.records 101) i = Some r ->
      exists ri, nth_error (map expected_row (seq 0 101)) i = Some ri
                 /\ flatten_page r = Ok ri)
  /\ (forall (St : Type) (query : St -> string -> json -> nat -> result json * St)
             (s : St) (pages : list (list json)),
        serves query "db" s JNull pages -> List.concat pages = Sim.records 101 ->
        fetch_notion_df query "db" (List.length pages + 0) s
        = Some (Ok (pd_DataFrame (map expected_row (seq 0 101))))).
Proof.
  apply (@fetch_pagination_complete (Sim.records 101) "db" 0%nat
           (map expected_row (seq 0 101))).
  vm_compute. reflexivity.
Defined.

(** The three sizes at the page boundary: one query serves 0 and 100
    records, 101 records need a second one. *)
Example fetch_boundary_sizes :
  fetch_rows (Sim.query (Sim.records 0)) "db" 1 tt = Some (Ok [])
  /\ fetch_rows (Sim.query (Sim.records 100)) "db" 1 tt
     = Some (Ok (map expected_row (seq 0 100)))
  /\ fetch_rows (Sim.query (Sim.records 101)) "db" 1 tt = None
  /\ fetch_rows (Sim.query (Sim.records 101)) "db" 2 tt
     = Some (Ok (map expected_row (seq 0 101))).
Proof. repeat split; vm_compute; reflexivity. Qed.

(** ** Termination of the loop *)

Section Termination.

Variable St : Type.
Variable query : St -> string -> json -> nat -> result json * St.
Variable db : string.

(** The loop's control does not depend on the rows gathered so far. *)
Lemma page_step_rows (resp : json) (rows : list row) :
  page_step resp rows
  = (r <- page_step resp [] ;; Ok (rows ++ fst r, snd r)).
Proof.
  unfold page_step.
  destruct (Py.getitem resp "results") as [results|]; cbn [bind]; [|reflexivity].
  destruct (Py.iter results) as [pages|]; cbn [bind]; [|reflexivity].
  destruct (mapM flatten_page pages) as [new_rows|]; cbn [bind]; [|reflexivity].
  destruct (Py.get resp "has_more" JNull) as [more|]; cbn [bind]; [|reflexivity].
  destruct (negb (Py.truthy more)); [reflexivity|].
  destruct (Py.get resp "next_cursor" JNull); reflexivity.
Qed.

(** One pass of the loop in terms of what the response says. *)
Lemma page_step_response (resp : json) (rows : list row) :
  page_step resp rows
  = (new_rows <- response_rows resp ;;
     match resp with
     | JObj kvs =>
         if has_more_set kvs
         then Ok (rows ++ new_rows, Some (next_cursor_of kvs))
         else Ok (rows ++ new_rows, None)
     | _ => Err AttributeError
     end).
Proof.
  unfold page_step, response_rows.
  destruct resp as [| | | | |kvs]; try reflexivity.
  destruct (Py.getitem (JObj kvs) "results") as [results|]; cbn [bind]; [|reflexivity].
  destruct (Py.iter results) as [pages|]; cbn [bind]; [|reflexivity].
  destruct (mapM flatten_page pages) as [new_rows|]; cbn [bind]; [|reflexivity].
  unfold Py.get, has_more_set, next_cursor_of.
  destruct (Py.lookup "has_more" kvs) as [more|]; cbn [bind Py.truthy negb];
    [|reflexivity].
  destruct (Py.truthy more); cbn [negb]; [|reflexivity].
  destruct (Py.lookup "next_cursor" kvs); reflexivity.
Qed.

Lemma response_rows_object (resp : json) (new_rows : list row) :
  response_rows resp = Ok new_rows -> exists kvs, resp = JObj kvs.
Proof.
  destruct resp; try discriminate. eauto.
Qed.

(** The loop on a response that can be read. *)
Lemma fetch_loop_step fuel s s' c kvs new_rows rows :
  query s db c 100%nat = (Ok (JObj kvs), s') ->
  response_rows (JObj kvs) = Ok new_rows ->
  fetch_loop query db (S fuel) s c rows
  = if has_more_set kvs
    then fetch_loop query db fuel s' (next_cursor_of kvs) (rows ++ new_rows)
    else Some (Ok (rows ++ new_rows)).
Proof.
  intros Hq Hr. cbn [fetch_loop]. rewrite Hq, page_step_response, Hr.
  cbn [bind]. destruct (has_more_set kvs); reflexivity.
Qed.

Lemma halts_fuel s c :
  halts query db s c ->
  exists fuel, forall rows, fetch_loop query db fuel s c rows <> None.
Proof.
  induction 1 as [s c e s' Hq|s c resp s' e Hq Hp|s c kvs s' nr Hq Hp Hm
                 |s c kvs s' nr Hq Hp Hm Hh [fuel IH]].
  - exists 1%nat. intros rows. cbn [fetch_loop]. rewrite Hq. discriminate.
  - exists 1%nat. intros rows. cbn [fetch_loop].
    rewrite Hq, page_step_response, Hp. discriminate.
  - exists 1%nat. intros rows.
    rewrite (fetch_loop_step 0 rows Hq Hp), Hm. discriminate.
  - exists (S fuel). intros rows.
    rewrite (fetch_loop_step fuel rows Hq Hp), Hm. apply IH.
Qed.

Lemma fuel_halts fuel :
  forall s c rows, fetch_loop query db fuel s c rows <> None -> halts query db s c.
Proof.
  induction fuel as [|fuel IH]; intros s c rows H; [now elim H|].
  destruct (query s db c 100%nat) as [[resp|e] s'] eqn:Hq;
    [|eapply halts_raise; eauto].
  destruct (response_rows resp) as [new_rows|e] eqn:Hr;
    [|eapply halts_unreadable; eauto].
  destruct (response_rows_object _ Hr) as [kvs ->].
  rewrite (fetch_loop_step fuel rows Hq Hr) in H.
  destruct (has_more_set kvs) eqn:Hm.
  - eapply halts_next; eauto.
  - eapply halts_last; eauto.
Qed.

(** What the loop does with an empty page. *)
Lemma fetch_loop_empty_page fuel s s' c kvs rows :
  query s db c 100%nat = (Ok (JObj kvs), s') ->
  Py.lookup "results" kvs = Some (JArr []) ->
  fetch_loop query db (S fuel) s c rows
  = match Py.lookup "has_more" kvs with
    | Some more =>
        if Py.truthy more then
          fetch_loop query db fuel s'
            (match Py.lookup "next_cursor" kvs with Some n => n | None => JNull end)
            rows
        else Some (Ok rows)
    | None => Some (Ok rows)
    end.
Proof.
  intros Hq Hr. cbn [fetch_loop]. rewrite Hq.
  unfold page_step, Py.getitem, Py.get. rewrite Hr. cbn [bind Py.iter mapM].
  rewrite app_nil_r.
  destruct (Py.lookup "has_more" kvs) as [more|]; cbn [bind Py.truthy negb];
    [|reflexivity].
  destruct (Py.truthy more); cbn [negb]; [|reflexivity].
  destruct (Py.lookup "next_cursor" kvs); reflexivity.
Qed.

End Termination.

Lemma endless_empty_pages_loops (db : string) :
  forall fuel cursor rows,
    fetch_loop Sim.endless_empty_pages db fuel tt cursor rows = None.
Proof.
  induction fuel as [|fuel IH]; intros cursor rows; [reflexivity|].
  cbn [fetch_loop]. unfold Sim.endless_empty_pages at 1.
  rewrite page_step_list. cbn [mapM bind]. apply IH.
Qed.

(** C2, as stated, fails: against a service that reports an empty page with
    has_more set on every query, [fetch_notion_df] never returns; the empty
    page does not end the pagination. *)
Lemma empty_page_termination_counterexample :
  ~ (exists fuel r, fetch_notion_df Sim.endless_empty_pages "db" fuel tt = Some r).
Proof.
  intros [fuel [r H]]. unfold fetch_notion_df, fetch_rows in H.
  rewrite endless_empty_pages_loops in H. discriminate.
Qed.

(** C2, amended.  The pagination loop returns exactly on the chains of
    responses that reach a response whose has_more flag is falsy or absent
    (or an exception): on a response that can be read it returns the rows
    gathered so far when has_more is falsy or absent, and queries again with
    the response's next cursor when has_more is set, whatever the page
    holds.  An empty page does not end the pagination by itself: with
    has_more falsy or absent the loop returns the rows gathered so far,
    without error; with has_more set it queries again. *)
Theorem fetch_terminates_on_has_more
  (St : Type) (query : St -> string -> json -> nat -> result json * St)
  (db : string) (s : St) (c : json) (rows : list row) :
  (halts query db s c <-> exists fuel, fetch_loop query db fuel s c rows <> None)
  /\ (forall fuel s' kvs new_rows,
        query s db c 100%nat = (Ok (JObj kvs), s') ->
        response_rows (JObj kvs) = Ok new_rows ->
        fetch_loop query db (S fuel) s c rows
        = if has_more_set kvs
          then fetch_loop query db fuel s' (next_cursor_of kvs) (rows ++ new_rows)
          else Some (Ok (rows ++ new_rows)))
  /\ (forall fuel s' kvs,
        query s db c 100%nat = (Ok (JObj kvs), s') ->
        Py.lookup "results" kvs = Some (JArr []) ->
        fetch_loop query db (S fuel) s c rows
        = match Py.lookup "has_more" kvs with
          | Some more =>
              if Py.truthy more then
                fetch_loop query db fuel s'
                  (match Py.lookup "next_cursor" kvs with
                   | Some n => n
                   | None => JNull
                   end) rows
              else Some (Ok rows)
          | None => Some (Ok rows)
          end).
Proof.
  split; [|split].
  - split.
    + intros H. destruct (halts_fuel H) as [fuel Hf]. exists fuel. apply Hf.
    + intros [fuel Hf]. eapply fuel_halts; eauto.
  - intros fuel s' kvs new_rows Hq Hr. eapply fetch_loop_step; eauto.
  - intros fuel s' kvs Hq Hr. eapply fetch_loop_empty_page; eauto.
Qed.

(** ** Extraction by type tag *)

Lemma plain_text_fragments (frags : list json) :
  forallb is_fragment frags = true ->
  (texts <- mapM (fun t => Py.get t "plain_text" (JStr "")) frags ;;
   mapM Py.as_str texts) = Ok (map plain_text_of frags).
Proof.
  induction frags as [|f frags IH]; intros H; [reflexivity|].
  cbn [forallb] in H. apply andb_prop in H as [Hf Hfs].
  specialize (IH Hfs). cbn [mapM map].
  destruct f as [| | | | |kvs]; try discriminate.
  unfold Py.get at 1, plain_text_of at 1. unfold is_fragment in Hf.
  destruct (mapM (fun t => Py.get t "plain_text" (JStr "")) frags) as [texts|];
    cbn [bind] in IH; [|discriminate].
  destruct (Py.lookup "plain_text" kvs) as [[| | |s| |]|]; try discriminate;
    cbn [bind mapM Py.as_str]; rewrite IH; reflexivity.
Qed.

Lemma _plain_text_fragments (frags : list json) :
  forallb is_fragment frags = true ->
  _plain_text (JArr frags) = Ok (String.concat "" (map plain_text_of frags)).
Proof.
  intros H. unfold _plain_text.
  assert (Hit : Py.iter (if Py.truthy (JArr frags) then JArr frags else JArr [])
                = Ok frags) by (destruct frags; reflexivity).
  rewrite Hit. cbn [bind].
  pose proof (plain_text_fragments frags H) as Hp.
  destruct (mapM (fun t => Py.get t "plain_text" (JStr "")) frags); cbn [bind] in *;
    [|discriminate].
  rewrite Hp. reflexivity.
Qed.

Lemma is_str_eqb (t s : string) : Py.is_str (JStr t) s = String.eqb t s.
Proof. reflexivity. Qed.

Lemma lookup_truthy (k : string) (o : list (string * json)) (x : json) :
  Py.lookup k o = Some x -> Py.truthy (JObj o) = true.
Proof. destruct o; [discriminate|reflexivity]. Qed.

Ltac tag_tests :=
  repeat match goal with
    | H : ?t = _ |- context [String.eqb ?t _] => rewrite H
    | H : ?t <> ?s |- context [String.eqb ?t ?s] =>
        rewrite (proj2 (String.eqb_neq t s) H)
    end;
  cbn [String.eqb Ascii.eqb Bool.eqb orb andb].

(** C3 (type-tag extraction).  For a property value [{"type": t, t: v}],
    [_get_prop_val] yields: for title and rich_text the concatenation of the
    fragments' plain_text (the empty string when there is none); for number
    the payload unchanged, null included; for select the selection's name, or
    null without a selection; for date the range's start, or null; for
    formula the value of the first of number, string, date, boolean the
    result carries, and the result itself when it carries none; for any other
    tag the payload unchanged. *)
Theorem get_prop_val_by_tag
  (p : list (string * json)) (t : string) (v : json)
  (Htype : Py.lookup "type" p = Some (JStr t))
  (Hpayload : Py.lookup t p = Some v) :
  let r := _get_prop_val (JObj p) in
  (t = "title" \/ t = "rich_text" ->
     (forall frags, v = JArr frags -> forallb is_fragment frags = true ->
        r = Ok (JStr (String.concat "" (map plain_text_of frags))))
     /\ (v = JNull \/ v = JArr [] -> r = Ok (JStr "")))
  /\ (t = "number" -> r = Ok v)
  /\ (t = "select" ->
        (v = JNull -> r = Ok JNull)
        /\ (forall o name, v = JObj o -> Py.lookup "name" o = Some name -> r = Ok name))
  /\ (t = "date" ->
        (v = JNull -> r = Ok JNull)
        /\ (forall o start, v = JObj o -> Py.lookup "start" o = Some start -> r = Ok start))
  /\ (t = "formula" -> forall o, v = JObj o ->
        (forall x, Py.lookup "number" o = Some x -> r = Ok x)
        /\ (Py.lookup "number" o = None ->
            (forall x, Py.lookup "string" o = Some x -> r = Ok x)
            /\ (Py.lookup "string" o = None ->
                (forall x, Py.lookup "date" o = Some x -> r = Ok x)
                /\ (Py.lookup "date" o = None ->
                    (forall x, Py.lookup "boolean" o = Some x -> r = Ok x)
                    /\ (Py.lookup "boolean" o = None -> r = Ok v)))))
  /\ (t <> "title" -> t <> "rich_text" -> t <> "number" -> t <> "select" ->
      t <> "date" -> t <> "formula" -> r = Ok v).
Proof.
  intros r.
  assert (Hr : r = (if String.eqb t "title" || String.eqb t "rich_text" then
                      s <- _plain_text v ;; Ok (JStr s)
                    else if String.eqb t "number" then Ok v
                    else if String.eqb t "select" then
                      (if Py.truthy v then Py.getitem v "name" else Ok JNull)
                    else if String.eqb t "date" then
                      (if Py.truthy v then Py.getitem v "start" else Ok JNull)
                    else if String.eqb t "formula" then
                      x <- formula_scan v formula_keys ;;
                      match x with Some x => Ok x | None => Ok v end
                    else Ok v)).
  { subst r. unfold _get_prop_val, Py.getitem at 1. rewrite Htype. cbn [bind].
    unfold Py.getitem_dyn, Py.getitem. rewrite Hpayload. cbn [bind].
    rewrite !is_str_eqb. reflexivity. }
  clearbody r. subst r.
  repeat split.
  - intros frags -> Hf.
    assert (Ht : String.eqb t "title" || String.eqb t "rich_text" = true)
      by (destruct H as [-> | ->]; reflexivity).
    rewrite Ht, (_plain_text_fragments frags Hf). reflexivity.
  - intros Hv.
    assert (Ht : String.eqb t "title" || String.eqb t "rich_text" = true)
      by (destruct H as [-> | ->]; reflexivity).
    rewrite Ht. destruct Hv as [-> | ->]; reflexivity.
  - intros ->. reflexivity.
  - intros ->. subst t. reflexivity.
  - intros o name -> Hn. subst t. cbn [String.eqb Ascii.eqb Bool.eqb orb].
    rewrite (lookup_truthy _ _ Hn). unfold Py.getitem. rewrite Hn. reflexivity.
  - intros ->. subst t. reflexivity.
  - intros o start -> Hs. subst t. cbn [String.eqb Ascii.eqb Bool.eqb orb].
    rewrite (lookup_truthy _ _ Hs). unfold Py.getitem. rewrite Hs. reflexivity.
  - intros x Hx. subst t v. cbn [String.eqb Ascii.eqb Bool.eqb orb].
    unfold formula_keys. cbn [formula_scan Py.contains Py.getitem bind].
    rewrite Hx. reflexivity.
  - intros x Hx. subst t v. cbn [String.eqb Ascii.eqb Bool.eqb orb].
    unfold formula_keys. cbn [formula_scan Py.contains Py.getitem bind].
    rewrite H1, Hx. reflexivity.
  - intros x Hx. subst t v. cbn [String.eqb Ascii.eqb Bool.eqb orb].
    unfold formula_keys. cbn [formula_scan Py.contains Py.getitem bind].
    rewrite H1, H2, Hx. reflexivity.
  - intros x Hx. subst t v. cbn [String.eqb Ascii.eqb Bool.eqb orb].
    unfold formula_keys. cbn [formula_scan Py.contains Py.getitem bind].
    rewrite H1, H2, H3, Hx. reflexivity.
  - intros Hx. subst t v. cbn [String.eqb Ascii.eqb Bool.eqb orb].
    unfold formula_keys. cbn [formula_scan Py.contains Py.getitem bind].
    rewrite H1, H2, H3, Hx. reflexivity.
  - intros. tag_tests. reflexivity.
Qed.

Lemma get_prop_val_by_tag_witness :
  _get_prop_val
    (JObj [("id", JStr "f"); ("type", JStr "formula");
           ("formula", JObj [("type", JStr "number"); ("number", JNum 42)])])
  = Ok (JNum 42).
Proof.
  destruct (@get_prop_val_by_tag
              [("id", JStr "f"); ("type", JStr "formula");
               ("formula", JObj [("type", JStr "number"); ("number", JNum 42)])]
              "formula"
              (JObj [("type", JStr "number"); ("number", JNum 42)])
              eq_refl eq_refl) as (_ & _ & _ & _ & Hformula & _).
  destruct (Hformula eq_refl _ eq_refl) as [Hnumber _].
  exact (Hnumber _ eq_refl).
Defined.

(** One property of each tag, flattened into a row. *)
Example flatten_every_tag :
  flatten_page
    (JObj [("id", JStr "page");
           ("properties",
            JObj [("Name", JObj [("type", JStr "title");
                                 ("title", JArr [JObj [("plain_text", JStr "SPY ")];
                                                 JObj [("plain_text", JStr "put")]])]);
                  ("Note", JObj [("type", JStr "rich_text"); ("rich_text", JArr [])]);
                  ("Profit/Loss", JObj [("type", JStr "number"); ("number", JNull)]);
                  ("Side", JObj [("type", JStr "select"); ("select", JNull)]);
                  ("Kind", JObj [("type", JStr "select");
                                 ("select", JObj [("name", JStr "put")])]);
                  ("Expiration", JObj [("type", JStr "date");
                                       ("date", JObj [("start", JStr "2024-01-05");
                                                      ("end", JNull)])]);
                  ("Net", JObj [("type", JStr "formula");
                                ("formula", JObj [("type", JStr "number");
                                                  ("number", JNum 42)])]);
                  ("Odd", JObj [("type", JStr "formula");
                                ("formula", JObj [("type", JStr "list")])]);
                  ("Done", JObj [("type", JStr "checkbox"); ("checkbox", JBool true)])])])
  = Ok [("Name", JStr "SPY put"); ("Note", JStr ""); ("Profit/Loss", JNull);
        ("Side", JNull); ("Kind", JStr "put"); ("Expiration", JStr "2024-01-05");
        ("Net", JNum 42); ("Odd", JObj [("type", JStr "list")]);
        ("Done", JBool true)].
Proof. vm_compute. reflexivity. Qed.

(** ** Currency formatting *)







Lemma remove_char_filter (c : ascii) (s : string) :
  remove_char c s
  = string_of_list_ascii
      (filter (fun a => negb (Ascii.eqb a c)) (list_ascii_of_string s)).
Proof.
  induction s as [|a s IH]; [reflexivity|].
  cbn [remove_char list_ascii_of_string filter].
  destruct (Ascii.eqb a c); cbn [negb string_of_list_ascii]; rewrite IH; reflexivity.
Qed.








(** ** Rounding to hundredths *)






(** ** Columns of a frame *)

Lemma replace_column_names (name : string) (cs : list cell) cols :
  map fst (replace_column name cs cols) = map fst cols.
Proof.
  induction cols as [|[k old] cols IH]; [reflexivity|].
  cbn [replace_column]. destruct (String.eqb k name); cbn [map fst]; congruence.
Qed.

Lemma has_column_names (name : string) (df : DataFrame) :
  has_column name df = existsb (fun k => String.eqb k name) (map fst (columns df)).
Proof.
  unfold has_column. induction (columns df) as [|[k cs] cols IH]; [reflexivity|].
  cbn [existsb map fst]. rewrite IH. reflexivity.
Qed.

Lemma has_column_set (name n : string) (cs : list cell) (df : DataFrame) :
  has_column name (set_column n cs df) = has_column name df.
Proof.
  rewrite !has_column_names. unfold set_column. cbn [columns].
  rewrite replace_column_names. reflexivity.
Qed.

Lemma find_column_replace_other (name n : string) (cs : list cell) cols :
  name <> n ->
  find_column name (replace_column n cs cols) = find_column name cols.
Proof.
  intros Hne. induction cols as [|[k old] cols IH]; [reflexivity|].
  cbn [replace_column]. destruct (String.eqb_spec k n) as [->|Hk];
    cbn [find_column].
  - rewrite (proj2 (String.eqb_neq n name)) by congruence. reflexivity.
  - rewrite IH. reflexivity.
Qed.

Lemma find_column_replace_same (n : string) (cs : list cell) cols :
  find_column n (replace_column n cs cols)
  = match find_column n cols with Some _ => Some cs | None => None end.
Proof.
  induction cols as [|[k old] cols IH]; [reflexivity|].
  cbn [replace_column find_column]. destruct (String.eqb_spec k n) as [->|Hk];
    cbn [find_column].
  - rewrite String.eqb_refl. reflexivity.
  - rewrite (proj2 (String.eqb_neq k n) Hk). exact IH.
Qed.

Lemma has_column_find (name : string) (df : DataFrame) :
  has_column name df
  = match find_column name (columns df) with Some _ => true | None => false end.
Proof.
  unfold has_column. induction (columns df) as [|[k cs] cols IH]; [reflexivity|].
  cbn [existsb find_column fst]. destruct (String.eqb k name); [reflexivity|exact IH].
Qed.

Lemma get_column_set_other (name n : string) (cs : list cell) (df : DataFrame) :
  name <> n -> get_column name (set_column n cs df) = get_column name df.
Proof.
  intros H. unfold get_column, set_column. cbn [columns].
  rewrite find_column_replace_other by exact H. reflexivity.
Qed.

Lemma get_column_set_same (n : string) (cs : list cell) (df : DataFrame) :
  has_column n df = true -> get_column n (set_column n cs df) = cs.
Proof.
  intros H. unfold get_column, set_column. cbn [columns].
  rewrite find_column_replace_same. rewrite has_column_find in H.
  destruct (find_column n (columns df)); [reflexivity|discriminate].
Qed.

Section Presenter.

Variable to_datetime : list cell -> cell -> option Z.
Variable to_numeric : string -> option Q.
Variable is_object : list cell -> bool.
Variable py_str : cell -> string.

Local Abbreviation Coerce := (coerce to_datetime to_numeric is_object py_str).
Local Abbreviation CoerceExpiration := (coerce_expiration to_datetime).
Local Abbreviation CoerceProfitLoss :=
  (coerce_profit_loss to_numeric is_object py_str).
Local Abbreviation Present := (present to_datetime to_numeric is_object py_str).

Lemma has_column_coerce_expiration name df :
  has_column name (CoerceExpiration df) = has_column name df.
Proof.
  unfold coerce_expiration.
  destruct (has_column "Expiration" df); [apply has_column_set|reflexivity].
Qed.

Lemma has_column_coerce_profit_loss name df :
  has_column name (CoerceProfitLoss df) = has_column name df.
Proof.
  unfold coerce_profit_loss.
  destruct (has_column "Profit/Loss" df && _); [apply has_column_set|reflexivity].
Qed.

Lemma has_column_coerce name df :
  has_column name (Coerce df) = has_column name df.
Proof.
  unfold coerce.
  rewrite has_column_coerce_profit_loss, has_column_coerce_expiration.
  reflexivity.
Qed.

Lemma nrows_coerce df : nrows (Coerce df) = nrows df.
Proof.
  unfold coerce, coerce_profit_loss, coerce_expiration.
  destruct (has_column "Expiration" df);
    match goal with |- context [if ?b then _ else _] => destruct b end;
    reflexivity.
Qed.

Lemma column_names_coerce df :
  map fst (columns (Coerce df)) = map fst (columns df).
Proof.
  unfold coerce, coerce_profit_loss, coerce_expiration.
  destruct (has_column "Expiration" df);
    match goal with |- context [if ?b then _ else _] => destruct b end;
    unfold set_column; cbn [columns]; rewrite ?replace_column_names; reflexivity.
Qed.

Lemma find_column_coerce name df :
  name <> "Expiration" -> name <> "Profit/Loss" ->
  find_column name (columns (Coerce df)) = find_column name (columns df).
Proof.
  intros H1 H2.
  unfold coerce, coerce_profit_loss, coerce_expiration.
  destruct (has_column "Expiration" df);
    match goal with |- context [if ?b then _ else _] => destruct b end;
    unfold set_column; cbn [columns];
    rewrite ?find_column_replace_other by assumption; reflexivity.
Qed.

(** The two columns the coercion may rewrite, cell by cell. *)
Lemma expiration_coerce df :
  get_column "Expiration" (Coerce df)
  = to_datetime_series to_datetime (get_column "Expiration" df).
Proof.
  unfold coerce, coerce_profit_loss.
  assert (H : get_column "Expiration" (CoerceExpiration df)
              = to_datetime_series to_datetime (get_column "Expiration" df)).
  { unfold coerce_expiration.
    destruct (has_column "Expiration" df) eqn:E.
    - apply get_column_set_same. exact E.
    - unfold get_column. rewrite has_column_find in E.
      destruct (find_column "Expiration" (columns df)); [discriminate|reflexivity]. }
  match goal with |- context [if ?b then _ else _] => destruct b end;
    [rewrite get_column_set_other by discriminate|]; exact H.
Qed.

Lemma profit_loss_coerce df :
  get_column "Profit/Loss" (Coerce df)
  = if has_column "Profit/Loss" df && is_object (get_column "Profit/Loss" df)
    then map (fun c => to_numeric_cell to_numeric (strip_currency py_str c))
             (get_column "Profit/Loss" df)
    else get_column "Profit/Loss" df.
Proof.
  unfold coerce, coerce_profit_loss.
  rewrite has_column_coerce_expiration.
  assert (H : get_column "Profit/Loss" (CoerceExpiration df)
              = get_column "Profit/Loss" df).
  { unfold coerce_expiration.
    destruct (has_column "Expiration" df); [|reflexivity].
    apply get_column_set_other. discriminate. }
  rewrite H.
  destruct (has_column "Profit/Loss" df) eqn:E; cbn [andb]; [|exact H].
  destruct (is_object (get_column "Profit/Loss" df)); [|exact H].
  apply get_column_set_same. rewrite has_column_coerce_expiration. exact E.
Qed.

Lemma present_schema_mismatch df :
  empty df = false ->
  has_column "Expiration" df = false \/ has_column "Profit/Loss" df = false ->
  Present df
  = {| events := [StWarning schema_message];
       pnl_df := Some (Coerce df);
       agg_by_exp := None |}.
Proof.
  intros He Hc. unfold present. rewrite He, !has_column_coerce.
  destruct Hc as [-> | ->]; [|rewrite andb_false_r]; reflexivity.
Qed.

End Presenter.

(** ** Rows left out of the aggregation *)

Lemma find_column_map (f : list cell -> list cell) (name : string) cols :
  find_column name (map (fun kc => (fst kc, f (snd kc))) cols)
  = option_map f (find_column name cols).
Proof.
  induction cols as [|[k cs] cols IH]; [reflexivity|].
  cbn [map find_column fst snd]. destruct (String.eqb k name); [reflexivity|exact IH].
Qed.

Lemma select_nil (A : Type) (mask : list bool) : select mask (@nil A) = [].
Proof. destruct mask; reflexivity. Qed.

Lemma get_column_dropna (name n : string) (df : DataFrame) :
  get_column name (dropna n df)
  = select (map (fun c => negb (is_null c)) (get_column n df)) (get_column name df).
Proof.
  unfold get_column at 1 3, dropna. cbn [columns].
  rewrite (find_column_map
             (select (map (fun c => negb (is_null c)) (get_column n df)))).
  destruct (find_column name (columns df)); cbn [option_map];
    [reflexivity|rewrite select_nil; reflexivity].
Qed.

Lemma get_column_drop_row (name : string) (i : nat) (df : DataFrame) :
  get_column name (drop_row i df) = remove_nth i (get_column name df).
Proof.
  unfold get_column, drop_row. cbn [columns].
  rewrite (find_column_map (remove_nth i)).
  destruct (find_column name (columns df)); reflexivity.
Qed.

Lemma group_rows_nil (keys : list cell) : group_rows keys [] = [].
Proof. destruct keys; reflexivity. Qed.

Lemma valid_pairs_remove_null (exps vals : list cell) :
  forall i c, nth_error exps i = Some c -> is_null c = true ->
              valid_pairs (remove_nth i exps) (remove_nth i vals)
              = valid_pairs exps vals.
Proof.
  unfold valid_pairs. revert vals.
  induction exps as [|e exps IH]; intros vals i c Hi Hc.
  - destruct i; discriminate.
  - destruct i as [|i]; cbn [nth_error] in Hi.
    + injection Hi as ->. cbn [remove_nth map select]. rewrite Hc. cbn [negb].
      destruct vals as [|v vals]; cbn [remove_nth select];
        rewrite ?select_nil, ?group_rows_nil; reflexivity.
    + destruct vals as [|v vals]; cbn [remove_nth map select].
      * rewrite ?select_nil, ?group_rows_nil. reflexivity.
      * destruct (negb (is_null e)); cbn [group_rows];
          rewrite (IH vals i c Hi Hc); reflexivity.
Qed.

Lemma to_datetime_series_nth (to_datetime : list cell -> cell -> option Z)
  (col : list cell) (i : nat) (c : cell) :
  nth_error col i = Some c ->
  is_null c = true \/ to_datetime col c = None ->
  nth_error (to_datetime_series to_datetime col) i = Some NaN.
Proof.
  intros Hi Hc. unfold to_datetime_series.
  rewrite nth_error_map, Hi. cbn [option_map].
  destruct (is_null c); [reflexivity|].
  destruct Hc as [Hc|Hc]; [discriminate|rewrite Hc; reflexivity].
Qed.

Section Claims.

Variable to_datetime : list cell -> cell -> option Z.
Variable to_numeric : string -> option Q.
Variable is_object : list cell -> bool.
Variable py_str : cell -> string.

Local Abbreviation Coerce' := (coerce to_datetime to_numeric is_object py_str).
Local Abbreviation Present' := (present to_datetime to_numeric is_object py_str).

Variable St : Type.
Variable query : St -> string -> json -> nat -> result json * St.

Local Abbreviation App' :=
  (app to_datetime to_numeric is_object py_str query).

Lemma aggregate_pairs (df : DataFrame) :
  aggregate df
  = map (fun p => mkPoint (fst p) (snd p) (profit_loss_label (Some (snd p))))
      (sort_values
         (groupby_sum
            (valid_pairs (get_column "Expiration" df) (get_column "Profit/Loss" df)))).
Proof.
  unfold aggregate, valid_pairs. rewrite !get_column_dropna. reflexivity.
Qed.

Lemma aggregate_drop_null_row (df : DataFrame) (i : nat) (c : cell) :
  nth_error (get_column "Expiration" df) i = Some c -> is_null c = true ->
  aggregate (drop_row i df) = aggregate df.
Proof.
  intros Hi Hc. rewrite !aggregate_pairs, !get_column_drop_row.
  rewrite (valid_pairs_remove_null _ _ _ Hi Hc). reflexivity.
Qed.

(** C7 (null exclusion).  In a table that has both columns, a row whose
    Expiration is missing or not parsable as a date gets a null Expiration
    cell by the coercion and stays in the table, which keeps its row count;
    the aggregated output is the one computed without that row; the page
    shows the chart and nothing else, no error and no warning. *)
Theorem unparsable_expiration_excluded
  (df : DataFrame) (i : nat) (c : cell)
  (Hnonempty : empty df = false)
  (Hexp : has_column "Expiration" df = true)
  (Hpnl : has_column "Profit/Loss" df = true)
  (Hcell : nth_error (get_column "Expiration" df) i = Some c)
  (Hbad : is_null c = true \/ to_datetime (get_column "Expiration" df) c = None) :
  let s := Present' df in
  pnl_df s = Some (Coerce' df)
  /\ nth_error (get_column "Expiration" (Coerce' df)) i = Some NaN
  /\ nrows (Coerce' df) = nrows df
  /\ agg_by_exp s = Some (aggregate (drop_row i (Coerce' df)))
  /\ agg_by_exp s = Some (aggregate (Coerce' df))
  /\ events s = [StPlotlyChart (make_figure (aggregate (Coerce' df)))].
Proof.
  assert (Hnan : nth_error (get_column "Expiration" (Coerce' df)) i = Some NaN).
  { rewrite expiration_coerce. eapply to_datetime_series_nth; eauto. }
  cbv zeta. unfold present. rewrite Hnonempty, !has_column_coerce, Hexp, Hpnl.
  cbn [andb events pnl_df agg_by_exp].
  repeat split; try assumption.
  - apply nrows_coerce.
  - rewrite (aggregate_drop_null_row _ _ Hnan); reflexivity.
Qed.

(** C8, amended.  When the fetched table has at least one row and at least
    one column (the script's emptiness test fails) and lacks the Expiration
    column or the Profit/Loss column, the script shows the guidance message
    naming the two columns and nothing else: no chart is drawn, no
    aggregation is computed, no error is reported. *)
Theorem schema_mismatch_signalled
  (NOTION_TOKEN : option string) (db_id_input : string) (fuel : nat) (s : St)
  (rows : list row)
  (Hconfigured : String.eqb db_id_input "" || falsy_token NOTION_TOKEN = false)
  (Hfetched : fetch_rows query db_id_input fuel s = Some (Ok rows))
  (Hnonempty : empty (pd_DataFrame rows) = false)
  (Hlacks : has_column "Expiration" (pd_DataFrame rows) = false
            \/ has_column "Profit/Loss" (pd_DataFrame rows) = false) :
  exists final,
    App' NOTION_TOKEN db_id_input fuel s = Some final
    /\ events final = [StWarning schema_message]
    /\ agg_by_exp final = None
    /\ (forall fig, ~ In (StPlotlyChart fig) (events final))
    /\ (forall e, ~ In (StError e) (events final)).
Proof.
  unfold app, fetch_notion_df. rewrite Hconfigured, Hfetched.
  rewrite (present_schema_mismatch _ _ _ _ _ Hnonempty Hlacks).
  eexists. split; [reflexivity|]. cbn [events agg_by_exp].
  repeat split; intros x [H|[]]; discriminate.
Qed.

(** C9 (empty dataset).  When the fetch retrieves zero rows the script shows
    the add-data message and stops: no chart, no aggregation; the event
    differs from the schema-mismatch warning. *)
Theorem empty_dataset_signalled
  (NOTION_TOKEN : option string) (db_id_input : string) (fuel : nat) (s : St)
  (Hconfigured : String.eqb db_id_input "" || falsy_token NOTION_TOKEN = false)
  (Hfetched : fetch_rows query db_id_input fuel s = Some (Ok [])) :
  App' NOTION_TOKEN db_id_input fuel s
  = Some {| events := [StInfo empty_message];
            pnl_df := Some (pd_DataFrame []);
            agg_by_exp := None |}
  /\ StInfo empty_message <> StWarning schema_message
  /\ empty_message <> schema_message.
Proof.
  unfold app, fetch_notion_df. rewrite Hconfigured, Hfetched.
  repeat split; discriminate.
Qed.

(** C10 (coercion frame).  After the script has run on a fetched table, the
    table it holds has the same row count and the same column names in the
    same order; every column other than Expiration and Profit/Loss is
    unchanged; the two named columns are rewritten cell by cell, position by
    position; and the aggregation leaves the coerced table as it is, its
    output being a separate frame. *)
Theorem coercion_frame (df : DataFrame) :
  exists df',
    pnl_df (Present' df) = Some df'
    /\ (df' = df \/ df' = Coerce' df)
    /\ (empty df = false -> df' = Coerce' df)
    /\ nrows (Coerce' df) = nrows df
    /\ map fst (columns (Coerce' df)) = map fst (columns df)
    /\ (forall name, name <> "Expiration" -> name <> "Profit/Loss" ->
          find_column name (columns (Coerce' df)) = find_column name (columns df))
    /\ get_column "Expiration" (Coerce' df)
       = to_datetime_series to_datetime (get_column "Expiration" df)
    /\ get_column "Profit/Loss" (Coerce' df)
       = (if has_column "Profit/Loss" df && is_object (get_column "Profit/Loss" df)
          then map (fun c => to_numeric_cell to_numeric (strip_currency py_str c))
                   (get_column "Profit/Loss" df)
          else get_column "Profit/Loss" df)
    /\ (forall name, List.length (get_column name (Coerce' df))
                     = List.length (get_column name df)).
Proof.
  assert (Hrest :
    nrows (Coerce' df) = nrows df
    /\ map fst (columns (Coerce' df)) = map fst (columns df)
    /\ (forall name, name <> "Expiration" -> name <> "Profit/Loss" ->
          find_column name (columns (Coerce' df)) = find_column name (columns df))
    /\ get_column "Expiration" (Coerce' df)
       = to_datetime_series to_datetime (get_column "Expiration" df)
    /\ get_column "Profit/Loss" (Coerce' df)
       = (if has_column "Profit/Loss" df && is_object (get_column "Profit/Loss" df)
          then map (fun c => to_numeric_cell to_numeric (strip_currency py_str c))
                   (get_column "Profit/Loss" df)
          else get_column "Profit/Loss" df)
    /\ (forall name, List.length (get_column name (Coerce' df))
                     = List.length (get_column name df))).
  { split; [apply nrows_coerce|]. split; [apply column_names_coerce|].
    split; [intros; apply find_column_coerce; assumption|].
    split; [apply expiration_coerce|]. split; [apply profit_loss_coerce|].
    intros name.
    destruct (String.eqb_spec name "Expiration") as [->|H1].
    - rewrite expiration_coerce. unfold to_datetime_series. apply length_map.
    - destruct (String.eqb_spec name "Profit/Loss") as [->|H2].
      + rewrite profit_loss_coerce.
        destruct (has_column "Profit/Loss" df && _); [apply length_map|reflexivity].
      + unfold get_column. rewrite find_column_coerce by assumption. reflexivity. }
  unfold present. destruct (empty df) eqn:He.
  - exists df. cbn [pnl_df]. repeat split; try apply Hrest; auto. discriminate.
  - exists (Coerce' df).
    destruct (has_column "Expiration" (Coerce' df) && has_column "Profit/Loss" (Coerce' df));
      cbn [pnl_df]; repeat split; try apply Hrest; auto.
Qed.

End Claims.

(** ** Grouping, summing and sorting *)

Lemma insert_key_In (k x : Z) (l : list Z) :
  In x (insert_key k l) <-> x = k \/ In x l.
Proof.
  induction l as [|h t IH]; cbn [insert_key In]; [intuition|].
  destruct (Z.ltb_spec k h); cbn [In]; [intuition|].
  destruct (Z.eqb_spec k h); cbn [In]; [subst; intuition|].
  rewrite IH. intuition.
Qed.

Lemma insert_key_sorted (k : Z) (l : list Z) :
  StronglySorted Z.lt l -> StronglySorted Z.lt (insert_key k l).
Proof.
  induction 1 as [|h t Hs IH Hh]; cbn [insert_key].
  - repeat constructor.
  - destruct (Z.ltb_spec k h) as [Hlt|Hge].
    + constructor; [constructor; assumption|].
      constructor; [exact Hlt|].
      rewrite Forall_forall in *. intros x Hx. specialize (Hh x Hx). lia.
    + destruct (Z.eqb_spec k h) as [Heq|Hne]; [constructor; assumption|].
      constructor; [exact IH|].
      rewrite Forall_forall in *. intros x Hx.
      apply insert_key_In in Hx as [->|Hx]; [lia|auto].
Qed.

Lemma group_keys_sorted (rs : list (Z * option Q)) :
  StronglySorted Z.lt (group_keys rs).
Proof.
  unfold group_keys. induction (map fst rs) as [|k ks IH]; cbn [fold_right].
  - constructor.
  - apply insert_key_sorted. exact IH.
Qed.

Lemma group_keys_In (k : Z) (rs : list (Z * option Q)) :
  In k (group_keys rs) <-> In k (map fst rs).
Proof.
  unfold group_keys. induction (map fst rs) as [|h ks IH]; cbn [fold_right In].
  - tauto.
  - rewrite insert_key_In, IH. intuition.
Qed.

Lemma groupby_sum_keys (rs : list (Z * option Q)) :
  map fst (groupby_sum rs) = group_keys rs.
Proof.
  unfold groupby_sum. rewrite map_map. cbn [fst]. apply map_id.
Qed.

Lemma sort_values_sorted (l : list (Z * Q)) :
  StronglySorted Z.lt (map fst l) -> sort_values l = l.
Proof.
  induction l as [|p l IH]; [reflexivity|].
  cbn [map]. intros H. inversion H as [|? ? Hs Hp]; subst.
  unfold sort_values in *. cbn [fold_right]. rewrite (IH Hs).
  destruct l as [|h t]; [reflexivity|].
  cbn [insert_by_key]. cbn [map] in Hp. inversion Hp; subst.
  rewrite (proj2 (Z.leb_le (fst p) (fst h))) by lia. reflexivity.
Qed.

(** The aggregated frame: one point per distinct date, in ascending order,
    carrying the sum over the rows of that date and its label. *)
Lemma aggregate_points (df : DataFrame) :
  aggregate df
  = map (point_of (valid_pairs (get_column "Expiration" df)
                               (get_column "Profit/Loss" df)))
      (group_keys (valid_pairs (get_column "Expiration" df)
                               (get_column "Profit/Loss" df))).
Proof.
  rewrite aggregate_pairs. rewrite sort_values_sorted.
  - unfold groupby_sum. rewrite map_map. reflexivity.
  - rewrite groupby_sum_keys. apply group_keys_sorted.
Qed.

Lemma aggregate_sorted (df : DataFrame) :
  StronglySorted Z.lt (map Expiration (aggregate df)).
Proof.
  rewrite aggregate_points, map_map. cbn [point_of Expiration].
  rewrite map_id. apply group_keys_sorted.
Qed.

(** The rows the grouping sees are the rows with a date, in table order. *)
Lemma valid_pairs_In (exps vals : list cell) (t : Z) (v : option Q) :
  In (t, v) (valid_pairs exps vals)
  <-> exists i c, nth_error exps i = Some (Timestamp t)
                  /\ nth_error vals i = Some c /\ numeric c = v.
Proof.
  unfold valid_pairs. revert vals.
  induction exps as [|e exps IH]; intros vals.
  - cbn. split; [intros []|intros (i & c & H & _); destruct i; discriminate].
  - destruct vals as [|x vals].
    + cbn [map select]. rewrite ?select_nil, group_rows_nil.
      split; [intros []|intros (i & c & _ & H & _); destruct i; discriminate].
    + cbn [map select]. destruct e as [|j|t'|q]; cbn [is_null negb].
      * rewrite IH. split.
        -- intros (i & c & H). exists (S i), c. exact H.
        -- intros ([|i] & c & H1 & H2); [discriminate|]. exists i, c. auto.
      * destruct j; cbn [negb group_rows key_of]; rewrite IH; split;
          try (intros (i & c & H); exists (S i), c; exact H);
          intros ([|i] & c & H1 & H2); try discriminate; exists i, c; auto.
      * cbn [group_rows key_of In]. rewrite IH. split.
        -- intros [H|(i & c & H)].
           ++ injection H as -> <-. exists 0%nat, x. auto.
           ++ exists (S i), c. exact H.
        -- intros ([|i] & c & H1 & H2 & H3); cbn [nth_error] in *.
           ++ left. congruence.
           ++ right. exists i, c. auto.
      * cbn [group_rows key_of]. rewrite IH. split.
        -- intros (i & c & H). exists (S i), c. exact H.
        -- intros ([|i] & c & H1 & H2); [discriminate|]. exists i, c. auto.
Qed.

Lemma valid_pairs_numeric (exps vals vals' : list cell) :
  map numeric vals = map numeric vals' ->
  valid_pairs exps vals = valid_pairs exps vals'.
Proof.
  unfold valid_pairs. revert vals vals'.
  induction exps as [|e exps IH]; intros vals vals' H; [reflexivity|].
  destruct vals as [|v vals], vals' as [|v' vals']; try discriminate.
  - reflexivity.
  - cbn [map] in H. injection H as Hv Hvs. cbn [map select].
    destruct (negb (is_null e)); cbn [group_rows];
      rewrite ?Hv, (IH _ _ Hvs); reflexivity.
Qed.

Section Examples.

Variable to_datetime : list cell -> cell -> option Z.
Variable to_numeric : string -> option Q.
Variable is_object : list cell -> bool.
Variable py_str : cell -> string.

Local Abbreviation Coerce'' := (coerce to_datetime to_numeric is_object py_str).
Local Abbreviation Present'' := (present to_datetime to_numeric is_object py_str).

Lemma present_aggregated (df : DataFrame) :
  empty df = false ->
  has_column "Expiration" df = true ->
  has_column "Profit/Loss" df = true ->
  Present'' df
  = {| events := [StPlotlyChart (make_figure (aggregate (Coerce'' df)))];
       pnl_df := Some (Coerce'' df);
       agg_by_exp := Some (aggregate (Coerce'' df)) |}.
Proof.
  intros He H1 H2. unfold present. rewrite He, !has_column_coerce, H1, H2.
  reflexivity.
Qed.

(** C4 (aggregation correctness).  On the table
    [(2024-01-05, 100); (2024-01-05, -30); (2024-01-12, 50)], whose dates parse
    to d1 < d2 and whose Profit/Loss column is numeric, the aggregation yields
    [(d1, 70, "$70.00"); (d2, 50, "$50.00")].  In general the aggregated
    frame has one point per distinct non-null date, in strictly ascending
    order of date, carrying the sum of the Profit/Loss values of the rows of
    that date, nulls skipped, and its formatted label. *)
Theorem aggregation_example (d1 d2 : Z)
  (Hd1 : to_datetime example_dates (Obj (JStr "2024-01-05")) = Some d1)
  (Hd2 : to_datetime example_dates (Obj (JStr "2024-01-12")) = Some d2)
  (Hlt : (d1 < d2)%Z)
  (Hnumeric : is_object [Obj (JNum 100); Obj (JNum (-30)); Obj (JNum 50)] = false) :
  agg_by_exp (Present'' (pd_DataFrame example_rows))
  = Some [mkPoint d1 70 "$70.00"; mkPoint d2 50 "$50.00"]
  /\ (forall df, StronglySorted Z.lt (map Expiration (aggregate df)))
  /\ (forall df,
        let pairs := valid_pairs (get_column "Expiration" df)
                                 (get_column "Profit/Loss" df) in
        aggregate df
        = map (fun k =>
                 mkPoint k (sum_skipna (group_values k pairs))
                         (format_currency (sum_skipna (group_values k pairs))))
              (group_keys pairs)
        /\ (forall k, In k (group_keys pairs) <-> In k (map fst pairs))).
Proof.
  split; [|split; [apply aggregate_sorted|]].
  - assert (Hdf : pd_DataFrame example_rows
                  = {| nrows := 3;
                       columns :=
                         [("Expiration", example_dates);
                          ("Profit/Loss",
                           [Obj (JNum 100); Obj (JNum (-30)); Obj (JNum 50)])] |})
      by (vm_compute; reflexivity).
    rewrite Hdf, present_aggregated by reflexivity. cbn [agg_by_exp].
    rewrite aggregate_pairs, expiration_coerce, profit_loss_coerce.
    change (has_column "Profit/Loss" _) with true.
    change (get_column "Profit/Loss" _)
      with [Obj (JNum 100); Obj (JNum (-30)); Obj (JNum 50)].
    change (get_column "Expiration" _) with example_dates.
    rewrite Hnumeric. cbn [andb].
    unfold to_datetime_series, example_dates in *.
    cbn [map is_null]. rewrite Hd1, Hd2.
    unfold valid_pairs. cbn [map is_null negb select group_rows key_of numeric].
    unfold groupby_sum, group_keys, group_values.
    cbn [map fst snd fold_right insert_key filter].
    rewrite (proj2 (Z.ltb_lt d1 d2) Hlt). cbn [insert_key].
    rewrite Z.ltb_irrefl, Z.eqb_refl. cbn [map].
    rewrite !Z.eqb_refl.
    rewrite (proj2 (Z.eqb_neq d2 d1)), (proj2 (Z.eqb_neq d1 d2)) by lia.
    cbn [map fst snd filter sort_values fold_right insert_by_key].
    rewrite (proj2 (Z.leb_le d1 d2)) by lia.
    vm_compute. reflexivity.
  - intros df pairs. split; [apply aggregate_points|].
    intros k. apply group_keys_In.
Qed.

(** C6 (currency coercion agreement).  A Profit/Loss column holding the
    string "$1,234.56" has object dtype, so the coercion strips "," and "$"
    and parses "1234.56"; a column holding the number 1234.56 is numeric and
    is left as it is.  Both give the same numeric value, and the same
    aggregated output. *)
Theorem currency_coercion_agrees (e : json)
  (Hstring : is_object [Obj (JStr "$1,234.56")] = true)
  (Hnumber : is_object [Obj (JNum (123456 # 100))] = false)
  (Hparse : to_numeric "1234.56" = Some (123456 # 100)) :
  let formatted :=
    pd_DataFrame [[("Expiration", e); ("Profit/Loss", JStr "$1,234.56")]] in
  let bare :=
    pd_DataFrame [[("Expiration", e); ("Profit/Loss", JNum (123456 # 100))]] in
  strip_currency py_str (Obj (JStr "$1,234.56")) = "1234.56"
  /\ get_column "Profit/Loss" (Coerce'' formatted) = [Float (123456 # 100)]
  /\ get_column "Profit/Loss" (Coerce'' bare) = get_column "Profit/Loss" bare
  /\ map numeric (get_column "Profit/Loss" (Coerce'' formatted))
     = map numeric (get_column "Profit/Loss" (Coerce'' bare))
  /\ agg_by_exp (Present'' formatted) = agg_by_exp (Present'' bare).
Proof.
  intros formatted bare.
  assert (Hf : formatted
               = {| nrows := 1;
                    columns := [("Expiration", [Obj e]);
                                ("Profit/Loss", [Obj (JStr "$1,234.56")])] |})
    by reflexivity.
  assert (Hb : bare
               = {| nrows := 1;
                    columns := [("Expiration", [Obj e]);
                                ("Profit/Loss", [Obj (JNum (123456 # 100))])] |})
    by reflexivity.
  assert (Hstrip : strip_currency py_str (Obj (JStr "$1,234.56")) = "1234.56")
    by reflexivity.
  assert (Hcf : get_column "Profit/Loss" (Coerce'' formatted) = [Float (123456 # 100)]).
  { rewrite profit_loss_coerce, Hf.
    change (has_column "Profit/Loss" _) with true.
    change (get_column "Profit/Loss" _) with [Obj (JStr "$1,234.56")].
    rewrite Hstring. cbn [andb map]. rewrite Hstrip.
    unfold to_numeric_cell. rewrite Hparse. reflexivity. }
  assert (Hcb : get_column "Profit/Loss" (Coerce'' bare)
                = [Obj (JNum (123456 # 100))]).
  { rewrite profit_loss_coerce, Hb.
    change (has_column "Profit/Loss" _) with true.
    change (get_column "Profit/Loss" _) with [Obj (JNum (123456 # 100))].
    rewrite Hnumber. reflexivity. }
  split; [exact Hstrip|]. split; [exact Hcf|]. split; [rewrite Hcb, Hb; reflexivity|].
  split; [rewrite Hcf, Hcb; reflexivity|].
  rewrite !present_aggregated by (rewrite ?Hf, ?Hb; reflexivity).
  cbn [agg_by_exp]. rewrite !aggregate_pairs, !expiration_coerce.
  f_equal. f_equal. f_equal. f_equal.
  rewrite Hcf, Hcb, Hf, Hb.
  change (get_column "Expiration" _) with [Obj e].
  apply valid_pairs_numeric. reflexivity.
Qed.

End Examples.

(** ** The properties on the simulated service and the sample parsers *)

Lemma aggregation_example_witness :
  agg_by_exp
    (present Sim.iso_to_datetime Sim.decimal_to_numeric Sim.infer_object
       Sim.py_str_sample (pd_DataFrame example_rows))
  = Some [mkPoint 1704412800000000000 70 "$70.00";
          mkPoint 1705017600000000000 50 "$50.00"].
Proof.
  refine (proj1 (@aggregation_example
                   Sim.iso_to_datetime Sim.decimal_to_numeric Sim.infer_object
                   Sim.py_str_sample 1704412800000000000 1705017600000000000
                   _ _ _ _)).
  - vm_compute. reflexivity.
  - vm_compute. reflexivity.
  - lia.
  - reflexivity.
Defined.

Lemma currency_coercion_agrees_witness :
  agg_by_exp
    (present Sim.iso_to_datetime Sim.decimal_to_numeric Sim.infer_object
       Sim.py_str_sample
       (pd_DataFrame [[("Expiration", JStr "2024-01-05");
                       ("Profit/Loss", JStr "$1,234.56")]]))
  = agg_by_exp
      (present Sim.iso_to_datetime Sim.decimal_to_numeric Sim.infer_object
         Sim.py_str_sample
         (pd_DataFrame [[("Expiration", JStr "2024-01-05");
                         ("Profit/Loss", JNum (123456 # 100))]])).
Proof.
  refine (proj2 (proj2 (proj2 (proj2
            (@currency_coercion_agrees
               Sim.iso_to_datetime Sim.decimal_to_numeric Sim.infer_object
               Sim.py_str_sample (JStr "2024-01-05") _ _ _))))).
  - reflexivity.
  - reflexivity.
  - vm_compute. reflexivity.
Defined.

Lemma unparsable_expiration_excluded_witness :
  let df := table_with_bad_date in
  let coerced :=
    coerce Sim.iso_to_datetime Sim.decimal_to_numeric Sim.infer_object
      Sim.py_str_sample df in
  let s :=
    present Sim.iso_to_datetime Sim.decimal_to_numeric Sim.infer_object
      Sim.py_str_sample df in
  pnl_df s = Some coerced
  /\ nth_error (get_column "Expiration" coerced) 1 = Some NaN
  /\ nrows coerced = nrows df
  /\ agg_by_exp s = Some (aggregate (drop_row 1 coerced))
  /\ agg_by_exp s = Some (aggregate coerced)
  /\ events s = [StPlotlyChart (make_figure (aggregate coerced))].
Proof.
  apply (@unparsable_expiration_excluded
           Sim.iso_to_datetime Sim.decimal_to_numeric Sim.infer_object
           Sim.py_str_sample table_with_bad_date 1%nat (Obj (JStr "soon"))).
  - reflexivity.
  - reflexivity.
  - reflexivity.
  - reflexivity.
  - right. reflexivity.
Defined.

(** The same table, run: the bad row is still in the table the script holds
    and the chart has the two dated points only. *)
Example bad_date_run :
  let s :=
    present Sim.iso_to_datetime Sim.decimal_to_numeric Sim.infer_object
      Sim.py_str_sample table_with_bad_date in
  option_map nrows (pnl_df s) = Some 3%nat
  /\ agg_by_exp s
     = Some [mkPoint 1704412800000000000 50 "$50.00";
             mkPoint 1705017600000000000 (123456 # 100) "$1,234.56"].
Proof. split; vm_compute; reflexivity. Qed.

(** C8, as stated, fails on a table that has rows but no column at all:
    the fetch returns one row, the table lacks both columns, and the script
    shows the add-data message instead of the schema warning. *)
Lemma schema_mismatch_counterexample :
  fetch_notion_df (Sim.query [record_with_no_property]) "db" 1 tt
  = Some (Ok (pd_DataFrame [[]]))
  /\ nrows (pd_DataFrame [[]]) = 1%nat
  /\ has_column "Expiration" (pd_DataFrame [[]]) = false
  /\ has_column "Profit/Loss" (pd_DataFrame [[]]) = false
  /\ app Sim.iso_to_datetime Sim.decimal_to_numeric Sim.infer_object
       Sim.py_str_sample (Sim.query [record_with_no_property])
       (Some "secret") "db" 1 tt
     = Some {| events := [StInfo empty_message];
               pnl_df := Some (pd_DataFrame [[]]);
               agg_by_exp := None |}
  /\ [StInfo empty_message] <> [StWarning schema_message].
Proof.
  repeat split; try (vm_compute; reflexivity). discriminate.
Qed.

Lemma schema_mismatch_signalled_witness :
  exists final,
    app Sim.iso_to_datetime Sim.decimal_to_numeric Sim.infer_object
      Sim.py_str_sample (Sim.query [record_without_profit_loss])
      (Some "secret") "db" 1 tt = Some final
    /\ events final = [StWarning schema_message]
    /\ agg_by_exp final = None
    /\ (forall fig, ~ In (StPlotlyChart fig) (events final))
    /\ (forall e, ~ In (StError e) (events final)).
Proof.
  apply (@schema_mismatch_signalled
           Sim.iso_to_datetime Sim.decimal_to_numeric Sim.infer_object
           Sim.py_str_sample unit (Sim.query [record_without_profit_loss])
           (Some "secret") "db" 1%nat tt
           [[("Name", JStr "SPY"); ("Expiration", JStr "2024-01-05")]]).
  - reflexivity.
  - vm_compute. reflexivity.
  - reflexivity.
  - right. reflexivity.
Defined.

Lemma empty_dataset_signalled_witness :
  app Sim.iso_to_datetime Sim.decimal_to_numeric Sim.infer_object
    Sim.py_str_sample (Sim.query []) (Some "secret") "db" 1 tt
  = Some {| events := [StInfo empty_message];
            pnl_df := Some (pd_DataFrame []);
            agg_by_exp := None |}
  /\ StInfo empty_message <> StWarning schema_message
  /\ empty_message <> schema_message.
Proof.
  apply (@empty_dataset_signalled
           Sim.iso_to_datetime Sim.decimal_to_numeric Sim.infer_object
           Sim.py_str_sample unit (Sim.query []) (Some "secret") "db" 1%nat tt).
  - reflexivity.
  - vm_compute. reflexivity.
Defined.

Lemma fetch_terminates_on_has_more_witness :
  halts (Sim.query []) "db" tt JNull.
Proof.
  apply (proj1 (@fetch_terminates_on_has_more unit (Sim.query []) "db" tt JNull [])).
  exists 1%nat. vm_compute. discriminate.
Defined.


Lemma coercion_frame_witness :
  exists df',
    pnl_df (present Sim.iso_to_datetime Sim.decimal_to_numeric Sim.infer_object
              Sim.py_str_sample table_with_bad_date) = Some df'
    /\ df' = coerce Sim.iso_to_datetime Sim.decimal_to_numeric Sim.infer_object
               Sim.py_str_sample table_with_bad_date
    /\ nrows df' = 3%nat.
Proof.
  destruct (@coercion_frame Sim.iso_to_datetime Sim.decimal_to_numeric
              Sim.infer_object Sim.py_str_sample table_with_bad_date)
    as (df' & Hheld & _ & Hcoerced & Hrows & _).
  exists df'. split; [exact Hheld|].
  assert (E : df' = coerce Sim.iso_to_datetime Sim.decimal_to_numeric
                      Sim.infer_object Sim.py_str_sample table_with_bad_date)
    by (apply Hcoerced; reflexivity).
  split; [exact E|]. rewrite E, Hrows. reflexivity.
Defined.

(** ** Columns of a fetched table *)

Lemma has_key_In (k : string) (r : row) :
  has_key k r = true <-> In k (map fst r).
Proof.
  unfold has_key. induction r as [|[k' v] r IH]; cbn [Py.lookup map fst In].
  - split; [discriminate|intros []].
  - destruct (String.eqb_spec k k') as [->|Hne]; [intuition|].
    rewrite IH. intuition congruence.
Qed.

Lemma existsb_eqb_In (k : string) (l : list string) :
  existsb (String.eqb k) l = true <-> In k l.
Proof.
  rewrite existsb_exists. split.
  - intros (x & Hx & E). apply String.eqb_eq in E. congruence.
  - intros H. exists k. split; [exact H|apply String.eqb_refl].
Qed.

Lemma add_names_In (k : string) (r : row) :
  forall names, In k (add_names names r) <-> In k names \/ In k (map fst r).
Proof.
  unfold add_names. induction r as [|[k' v] r IH]; intros names;
    cbn [fold_left map fst In]; [tauto|].
  rewrite IH. destruct (existsb (String.eqb k') names) eqn:E.
  - apply existsb_eqb_In in E. intuition congruence.
  - rewrite in_app_iff. cbn [In]. intuition.
Qed.

Lemma column_names_In (k : string) (rows : list row) :
  In k (column_names rows) <-> exists r, In r rows /\ has_key k r = true.
Proof.
  unfold column_names.
  assert (H : forall names,
             In k (fold_left add_names rows names)
             <-> In k names \/ exists r, In r rows /\ has_key k r = true).
  { induction rows as [|r rows IH]; intros names; cbn [fold_left In].
    - split; [auto|intros [H|(r & [] & _)]; exact H].
    - rewrite IH, add_names_In, <- has_key_In. split.
      + intros [[H|H]|(r' & H1 & H2)]; eauto 6.
      + intros [H|(r' & [<-|H1] & H2)]; eauto 6. }
  rewrite H. cbn [In]. tauto.
Qed.

(** The table has a column exactly when some row has the key. *)
Lemma has_column_pd_DataFrame (k : string) (rows : list row) :
  has_column k (pd_DataFrame rows) = true
  <-> exists r, In r rows /\ has_key k r = true.
Proof.
  rewrite has_column_names. unfold pd_DataFrame. cbn [columns].
  rewrite map_map. cbn [fst]. rewrite map_id, <- column_names_In.
  rewrite existsb_exists. split.
  - intros (x & Hx & E). apply String.eqb_eq in E. congruence.
  - intros H. exists k. split; [exact H|apply String.eqb_refl].
Qed.


(** * Further properties of the retriever *)

Section RetrieverFailures.

Variable to_datetime : list cell -> cell -> option Z.
Variable to_numeric : string -> option Q.
Variable is_object : list cell -> bool.
Variable py_str : cell -> string.
Variable St : Type.
Variable query : St -> string -> json -> nat -> result json * St.
Variable db : string.

Lemma raises_fetch_loop s c e :
  raises query db s c e ->
  exists fuel, forall extra acc,
    fetch_loop query db (fuel + extra) s c acc = Some (Err e).
Proof.
  induction 1 as [s c e s' Hq
                 |s c kvs s' page page_rows more c' e Hq Hr Hf Hm Ht Hc Hrest [fuel IH]].
  - exists 1%nat. intros extra acc. cbn [Nat.add fetch_loop]. rewrite Hq. reflexivity.
  - exists (S fuel). intros extra acc. cbn [Nat.add fetch_loop]. rewrite Hq.
    unfold page_step, Py.getitem, Py.get. rewrite Hr, Hm.
    cbn [bind Py.iter]. rewrite Hf. cbn [bind]. rewrite Ht. cbn [negb].
    subst c'. destruct (Py.lookup "next_cursor" kvs); cbn [bind]; apply IH.
Qed.

(** X1.  When a query raises, on the first page or after any number of pages
    served without fault, the fetch ends with that exception and the rows
    gathered from the earlier pages are dropped: the script shows the error
    and nothing else, and holds no table. *)
Theorem fetch_failure_surfaces
  (NOTION_TOKEN : option string) (s : St) (e : exn)
  (Hconfigured : String.eqb db "" || falsy_token NOTION_TOKEN = false)
  (Hraises : raises query db s JNull e) :
  exists fuel, forall extra,
    fetch_notion_df query db (fuel + extra) s = Some (Err e)
    /\ app to_datetime to_numeric is_object py_str query NOTION_TOKEN db
         (fuel + extra) s
       = Some {| events := [StError e]; pnl_df := None; agg_by_exp := None |}.
Proof.
  destruct (raises_fetch_loop Hraises) as [fuel Hfuel].
  exists fuel. intros extra.
  unfold app, fetch_notion_df, fetch_rows. rewrite Hconfigured, Hfuel.
  split; reflexivity.
Qed.

Lemma mapM_first_error (A B : Type) (f : A -> result B)
  (good : list A) (bad : A) (rest : list A) (bs : list B) (e : exn) :
  mapM f good = Ok bs -> f bad = Err e -> mapM f (good ++ bad :: rest) = Err e.
Proof.
  intros Hg Hb. rewrite mapM_app, Hg. cbn [bind mapM]. rewrite Hb. reflexivity.
Qed.

(** X2.  A record that cannot be flattened makes the whole fetch fail with
    that record's exception, wherever the record sits in the pages: the rows
    of the records before it are not returned. *)
Theorem fetch_stops_at_first_bad_record
  (s : St) (pages : list (list json)) (good : list json) (bad : json)
  (rest : list json) (rows : list row) (e : exn)
  (Hserves : serves query db s JNull pages)
  (Hsplit : List.concat pages = good ++ bad :: rest)
  (Hgood : mapM flatten_page good = Ok rows)
  (Hbad : flatten_page bad = Err e) :
  forall extra,
    fetch_notion_df query db (List.length pages + extra) s = Some (Err e).
Proof.
  intros extra. unfold fetch_notion_df, fetch_rows.
  rewrite (fetch_loop_serves Hserves), Hsplit,
    (@mapM_first_error _ _ _ _ _ rest _ _ Hgood Hbad).
  reflexivity.
Qed.

(** X12.  Against a service that serves its records in [pages] pages, the
    loop issues one query per page: it is still looping after any smaller
    number of queries. *)
Theorem fetch_one_query_per_page
  (s : St) (c : json) (pages : list (list json)) (rows : list row)
  (Hserves : serves query db s c pages)
  (Hflat : mapM flatten_page (List.concat pages) = Ok rows) :
  forall fuel acc,
    (fuel < List.length pages)%nat ->
    fetch_loop query db fuel s c acc = None.
Proof.
  revert rows Hflat.
  induction Hserves as [s c page kvs s' Hq Hr Hm
                       |s c page pages kvs s' c' Hq Hr Hm Hc Hs IH];
    intros rows Hflat fuel acc Hlt; cbn [List.length] in Hlt.
  - destruct fuel; [reflexivity|lia].
  - destruct fuel as [|fuel]; [reflexivity|].
    cbn [fetch_loop]. rewrite Hq, (page_step_paged _ acc Hr Hm), Hc.
    cbn [List.concat] in Hflat. rewrite mapM_app in Hflat.
    destruct (mapM flatten_page page) as [page_rows|]; cbn [bind] in *;
      [|discriminate].
    destruct (mapM flatten_page (List.concat pages)) as [more_rows|] eqn:Hrest;
      cbn [bind] in Hflat; [|discriminate].
    eapply IH; [reflexivity|lia].
Qed.

End RetrieverFailures.

(** X13.  The loop queries only the database it was given, with page size
    100: two services that agree on those queries give the same fetch. *)
Theorem fetch_queries_only_given_database
  (St : Type) (q1 q2 : St -> string -> json -> nat -> result json * St)
  (db : string)
  (Hagree : forall s c, q1 s db c 100%nat = q2 s db c 100%nat) :
  forall fuel s, fetch_notion_df q1 db fuel s = fetch_notion_df q2 db fuel s.
Proof.
  assert (H : forall fuel s c acc,
             fetch_loop q1 db fuel s c acc = fetch_loop q2 db fuel s c acc).
  { induction fuel as [|fuel IH]; intros s c acc; [reflexivity|].
    cbn [fetch_loop]. rewrite Hagree.
    destruct (q2 s db c 100%nat) as [[resp|e] s']; [|reflexivity].
    destruct (page_step resp acc) as [[rows' [c'|]]|]; auto. }
  intros fuel s. unfold fetch_notion_df, fetch_rows. rewrite H. reflexivity.
Qed.

(** X3.  Missing keys and wrong shapes in [_get_prop_val] and in the
    flattening of a page: a page without "properties", a property without
    "type", and a property without the payload its tag names raise KeyError
    for that key; a property that is not an object raises TypeError; a
    selection or date object without its "name" or "start" raises KeyError,
    while an empty object counts as no selection. *)
Theorem extraction_errors :
  (forall page, Py.lookup "properties" page = None ->
     flatten_page (JObj page) = Err (KeyError (JStr "properties")))
  /\ (forall page props, Py.lookup "properties" page = Some props ->
        (forall kvs, props <> JObj kvs) ->
        flatten_page (JObj page) = Err AttributeError)
  /\ (forall p, Py.lookup "type" p = None ->
        _get_prop_val (JObj p) = Err (KeyError (JStr "type")))
  /\ (forall p t, Py.lookup "type" p = Some (JStr t) -> Py.lookup t p = None ->
        _get_prop_val (JObj p) = Err (KeyError (JStr t)))
  /\ (forall x, (forall kvs, x <> JObj kvs) -> _get_prop_val x = Err TypeError)
  /\ (forall p tag key o,
        (tag = "select" /\ key = "name") \/ (tag = "date" /\ key = "start") ->
        Py.lookup "type" p = Some (JStr tag) ->
        Py.lookup tag p = Some (JObj o) ->
        Py.lookup key o = None ->
        _get_prop_val (JObj p)
        = match o with [] => Ok JNull | _ => Err (KeyError (JStr key)) end).
Proof.
  repeat split.
  - intros page H. unfold flatten_page, Py.getitem. rewrite H. reflexivity.
  - intros page props H Hno. unfold flatten_page, Py.getitem. rewrite H.
    cbn [bind]. destruct props; try reflexivity. elim (Hno kvs). reflexivity.
  - intros p H. unfold _get_prop_val, Py.getitem. rewrite H. reflexivity.
  - intros p t Ht Hp. unfold _get_prop_val, Py.getitem at 1. rewrite Ht.
    cbn [bind]. unfold Py.getitem_dyn, Py.getitem. rewrite Hp. reflexivity.
  - intros x Hno. destruct x; try reflexivity. elim (Hno kvs). reflexivity.
  - intros p tag key o Htag Ht Hp Hk.
    unfold _get_prop_val, Py.getitem at 1. rewrite Ht. cbn [bind].
    unfold Py.getitem_dyn, Py.getitem at 1. rewrite Hp. cbn [bind].
    destruct Htag as [[-> ->]|[-> ->]]; cbn [Py.is_str String.eqb Ascii.eqb Bool.eqb orb];
      (destruct o as [|kv o]; [reflexivity|]);
      cbn [Py.truthy]; unfold Py.getitem; rewrite Hk; reflexivity.
Qed.

(** ** The row built for a page *)

Lemma dict_set_fresh (k : string) (v : json) (r : row) :
  ~ In k (map fst r) -> Py.dict_set k v r = r ++ [(k, v)].
Proof.
  induction r as [|[k' v'] r IH]; cbn [Py.dict_set map fst In app]; intros H.
  - reflexivity.
  - destruct (String.eqb_spec k k') as [->|Hne]; [tauto|].
    rewrite IH by tauto. reflexivity.
Qed.

Lemma dict_set_lookup (k : string) (v : json) (r : row) :
  Py.lookup k (Py.dict_set k v r) = Some v
  /\ (forall k', k' <> k -> Py.lookup k' (Py.dict_set k v r) = Py.lookup k' r).
Proof.
  induction r as [|[k0 v0] r [IH1 IH2]]; cbn [Py.dict_set Py.lookup].
  - rewrite String.eqb_refl. split; [reflexivity|].
    intros k' Hne. rewrite (proj2 (String.eqb_neq k' k) Hne). reflexivity.
  - destruct (String.eqb_spec k k0) as [->|Hne]; cbn [Py.lookup].
    + rewrite String.eqb_refl. split; [reflexivity|].
      intros k' Hk'. rewrite (proj2 (String.eqb_neq k' k0) Hk'). reflexivity.
    + rewrite (proj2 (String.eqb_neq k k0) Hne). split; [exact IH1|].
      intros k' Hk'. destruct (String.eqb k' k0); [reflexivity|auto].
Qed.

Lemma fill_row_fresh (its : list (string * json)) :
  forall (r : row) (vals : list json),
    NoDup (map fst r ++ map fst its) ->
    mapM (fun kv => _get_prop_val (snd kv)) its = Ok vals ->
    fill_row its r = Ok (r ++ combine (map fst its) vals).
Proof.
  induction its as [|[k val] its IH]; intros r vals Hnd Hm; cbn [mapM] in Hm.
  - injection Hm as <-. cbn. rewrite app_nil_r. reflexivity.
  - cbn [snd] in Hm. cbn [fill_row].
    destruct (_get_prop_val val) as [x|]; cbn [bind] in *; [|discriminate].
    destruct (mapM (fun kv => _get_prop_val (snd kv)) its) as [xs|] eqn:Hxs;
      cbn [bind] in Hm; [|discriminate].
    injection Hm as <-. cbn [map fst combine] in *.
    assert (Hfresh : ~ In k (map fst r)).
    { apply NoDup_remove_2 in Hnd. intros Hin. apply Hnd.
      apply in_or_app. left. exact Hin. }
    rewrite dict_set_fresh by exact Hfresh.
    rewrite (IH (r ++ [(k, x)]) xs); [rewrite <- app_assoc; reflexivity| |reflexivity].
    rewrite map_app. cbn [map fst]. rewrite <- app_assoc. cbn [app].
    apply NoDup_Add with (a := k) (l := map fst r ++ map fst its).
    + apply Add_app.
    + split.
      * apply NoDup_remove_1 in Hnd. exact Hnd.
      * apply NoDup_remove_2 in Hnd. exact Hnd.
Qed.

Lemma fill_row_error (its : list (string * json)) (e : exn) :
  forall r, mapM (fun kv => _get_prop_val (snd kv)) its = Err e ->
            fill_row its r = Err e.
Proof.
  induction its as [|[k val] its IH]; intros r Hm; cbn [mapM snd] in Hm;
    [discriminate|].
  cbn [fill_row]. destruct (_get_prop_val val) as [x|]; cbn [bind] in *;
    [|congruence].
  apply IH.
  destruct (mapM (fun kv => _get_prop_val (snd kv)) its); cbn [bind] in Hm;
    [discriminate|exact Hm].
Qed.

(** X4.  The row of a page has one entry per property of the page, under the
    property's name and in the page's order, holding the value extracted
    from that property; when a property cannot be extracted the page has no
    row and the first such exception is raised. *)
Theorem flatten_page_row
  (page props : list (string * json))
  (Hprops : Py.lookup "properties" page = Some (JObj props))
  (Hdistinct : NoDup (map fst props)) :
  (forall vals,
      mapM (fun kv => _get_prop_val (snd kv)) props = Ok vals ->
      flatten_page (JObj page) = Ok (combine (map fst props) vals)
      /\ map fst (combine (map fst props) vals) = map fst props
      /\ (forall k p, In (k, p) props ->
          exists x, _get_prop_val p = Ok x
                    /\ Py.lookup k (combine (map fst props) vals) = Some x))
  /\ (forall e,
        mapM (fun kv => _get_prop_val (snd kv)) props = Err e ->
        flatten_page (JObj page) = Err e).
Proof.
  split.
  - intros vals Hm.
    assert (Hflat : flatten_page (JObj page) = Ok (combine (map fst props) vals)).
    { unfold flatten_page, Py.getitem. rewrite Hprops. cbn [bind Py.items].
      rewrite (fill_row_fresh props [] Hdistinct Hm). reflexivity. }
    split; [exact Hflat|].
    clear Hprops Hflat. revert vals Hm.
    induction props as [|[k0 p0] props IH]; intros vals Hm; cbn [mapM snd] in Hm.
    + injection Hm as <-. split; [reflexivity|intros k p []].
    + destruct (_get_prop_val p0) as [x0|] eqn:Hx0; cbn [bind] in Hm; [|discriminate].
      destruct (mapM (fun kv => _get_prop_val (snd kv)) props) as [xs|] eqn:Hxs;
        cbn [bind] in Hm; [|discriminate].
      injection Hm as <-. cbn [map fst] in Hdistinct.
      inversion Hdistinct as [|? ? Hnotin Hnd]; subst.
      destruct (IH Hnd xs eq_refl) as [IHk IHv].
      cbn [map fst combine]. split; [rewrite IHk; reflexivity|].
      intros k p [Heq|Hin].
      * injection Heq as <- <-. exists x0. cbn [Py.lookup].
        rewrite String.eqb_refl. auto.
      * destruct (IHv k p Hin) as (x & Hx & Hl). exists x. split; [exact Hx|].
        cbn [Py.lookup]. destruct (String.eqb_spec k k0) as [->|]; [|exact Hl].
        elim Hnotin. change k0 with (fst (k0, p)). apply in_map. exact Hin.
  - intros e Hm. unfold flatten_page, Py.getitem. rewrite Hprops.
    cbn [bind Py.items]. apply fill_row_error. exact Hm.
Qed.

(** ** The shape of the table *)

Lemma add_names_NoDup (r : row) :
  forall names, NoDup names -> NoDup (add_names names r).
Proof.
  unfold add_names. induction r as [|[k v] r IH]; intros names Hnd;
    cbn [fold_left fst]; [exact Hnd|].
  apply IH. destruct (existsb (String.eqb k) names) eqn:E; [exact Hnd|].
  apply NoDup_Add with (a := k) (l := names).
  - rewrite <- (app_nil_r names) at 1. apply Add_app.
  - split; [exact Hnd|]. intros Hin. apply existsb_eqb_In in Hin. congruence.
Qed.

Lemma column_names_NoDup (rows : list row) : NoDup (column_names rows).
Proof.
  unfold column_names.
  assert (H : forall names, NoDup names -> NoDup (fold_left add_names rows names)).
  { induction rows as [|r rows IH]; intros names Hnd; cbn [fold_left];
      [exact Hnd|]. apply IH, add_names_NoDup, Hnd. }
  apply H. constructor.
Qed.

Lemma find_column_built (f : string -> list cell) (k : string) (names : list string) :
  In k names -> find_column k (map (fun n => (n, f n)) names) = Some (f k).
Proof.
  induction names as [|n names IH]; intros Hin; [destruct Hin|].
  cbn [map find_column]. destruct (String.eqb_spec n k) as [->|Hne]; [reflexivity|].
  destruct Hin as [->|Hin]; [congruence|auto].
Qed.

Lemma replace_column_Forall (P : list cell -> Prop) (name : string)
  (cs : list cell) cols :
  P cs -> Forall (fun kc => P (snd kc)) cols ->
  Forall (fun kc => P (snd kc)) (replace_column name cs cols).
Proof.
  intros Hcs. induction 1 as [|[k old] cols Hk Hcols IH]; cbn [replace_column];
    [constructor|].
  destruct (String.eqb k name); constructor; auto.
Qed.

Lemma well_formed_get_column (df : DataFrame) (name : string) :
  well_formed df -> has_column name df = true ->
  List.length (get_column name df) = nrows df.
Proof.
  intros [_ Hlen] Hhas. unfold get_column. rewrite has_column_find in Hhas.
  induction (columns df) as [|[k cs] cols IH]; cbn [find_column] in *;
    [discriminate|].
  inversion Hlen; subst. destruct (String.eqb k name); auto.
Qed.

Lemma well_formed_set_column (df : DataFrame) (name : string) (cs : list cell) :
  well_formed df -> List.length cs = nrows df ->
  well_formed (set_column name cs df).
Proof.
  intros [Hnd Hlen] Hcs. unfold well_formed, set_column. cbn [columns nrows].
  rewrite replace_column_names. split; [exact Hnd|].
  apply (replace_column_Forall (fun c => List.length c = nrows df)); assumption.
Qed.

Lemma extracted_lookup (props : list (string * json)) :
  forall vals k p,
    NoDup (map fst props) ->
    mapM (fun kv => _get_prop_val (snd kv)) props = Ok vals ->
    In (k, p) props ->
    exists x, _get_prop_val p = Ok x
              /\ Py.lookup k (combine (map fst props) vals) = Some x.
Proof.
  induction props as [|[k0 p0] props IH]; intros vals k p Hnd Hm Hin;
    [destruct Hin|].
  cbn [mapM snd] in Hm.
  destruct (_get_prop_val p0) as [x0|] eqn:Hx0; cbn [bind] in Hm; [|discriminate].
  destruct (mapM (fun kv => _get_prop_val (snd kv)) props) as [xs|] eqn:Hxs;
    cbn [bind] in Hm; [|discriminate].
  injection Hm as <-. cbn [map fst] in Hnd.
  inversion Hnd as [|? ? Hnotin Hnd']; subst.
  cbn [map fst combine Py.lookup]. destruct Hin as [Heq|Hin].
  - injection Heq as <- <-. exists x0. rewrite String.eqb_refl. auto.
  - destruct (IH xs k p Hnd' eq_refl Hin) as (x & Hx & Hl). exists x.
    split; [exact Hx|].
    destruct (String.eqb_spec k k0) as [->|]; [|exact Hl].
    elim Hnotin. change k0 with (fst (k0, p)). apply in_map. exact Hin.
Qed.

Lemma flatten_page_lookup (page props : list (string * json)) (r : row)
  (k : string) (p : json) :
  Py.lookup "properties" page = Some (JObj props) ->
  NoDup (map fst props) ->
  flatten_page (JObj page) = Ok r ->
  In (k, p) props ->
  exists x, _get_prop_val p = Ok x /\ Py.lookup k r = Some x.
Proof.
  intros Hprops Hnd Hflat Hin.
  unfold flatten_page, Py.getitem in Hflat. rewrite Hprops in Hflat.
  cbn [bind Py.items] in Hflat.
  destruct (mapM (fun kv => _get_prop_val (snd kv)) props) as [vals|e] eqn:Hm.
  - rewrite (fill_row_fresh props [] Hnd Hm) in Hflat. cbn [app] in Hflat.
    injection Hflat as <-. eapply extracted_lookup; eauto.
  - rewrite (fill_row_error props [] Hm) in Hflat. discriminate.
Qed.

(** X5.  The table built from the fetched rows has one column per property
    name met in the rows, each name once; every column has one cell per row,
    the cell of row i holding that row's value for the column, or the
    missing marker when the row lacks the property.  So the cell of row i in
    column k of the fetched table holds the value extracted from property k
    of record i.  The coercion keeps the shape: distinct names, full
    columns. *)
Theorem table_shape
  (to_datetime : list cell -> cell -> option Z) (to_numeric : string -> option Q)
  (is_object : list cell -> bool) (py_str : cell -> string) (rows : list row) :
  well_formed (pd_DataFrame rows)
  /\ (forall k, In k (map fst (columns (pd_DataFrame rows)))
                <-> exists r, In r rows /\ has_key k r = true)
  /\ (forall k i r,
        has_column k (pd_DataFrame rows) = true ->
        nth_error rows i = Some r ->
        nth_error (get_column k (pd_DataFrame rows)) i
        = Some (match Py.lookup k r with
                | Some v => Obj v
                | None => NaN
                end))
  /\ (forall recs i page props k p,
        mapM flatten_page recs = Ok rows ->
        nth_error recs i = Some (JObj page) ->
        Py.lookup "properties" page = Some (JObj props) ->
        NoDup (map fst props) ->
        In (k, p) props ->
        exists x,
          _get_prop_val p = Ok x
          /\ nth_error (get_column k (pd_DataFrame rows)) i = Some (Obj x))
  /\ (forall df, well_formed df ->
        well_formed (coerce to_datetime to_numeric is_object py_str df)).
Proof.
  assert (Hnames : map fst (columns (pd_DataFrame rows)) = column_names rows).
  { unfold pd_DataFrame. cbn [columns]. rewrite map_map. cbn [fst]. apply map_id. }
  assert (Hcell : forall k i r,
        has_column k (pd_DataFrame rows) = true ->
        nth_error rows i = Some r ->
        nth_error (get_column k (pd_DataFrame rows)) i
        = Some (match Py.lookup k r with
                | Some v => Obj v
                | None => NaN
                end)).
  { intros k i r Hhas Hi.
    assert (Hin : In k (column_names rows)).
    { rewrite has_column_names, Hnames in Hhas.
      apply existsb_exists in Hhas as (x & Hx & E).
      apply String.eqb_eq in E. congruence. }
    unfold get_column, pd_DataFrame. cbn [columns].
    rewrite (find_column_built (fun n => map (cell_of n) rows) k _ Hin).
    rewrite nth_error_map, Hi. reflexivity. }
  split; [|split; [|split; [|split]]].
  - split; [rewrite Hnames; apply column_names_NoDup|].
    unfold pd_DataFrame. cbn [columns nrows]. apply Forall_forall.
    intros kc Hin. apply in_map_iff in Hin as (k & <- & _). cbn [snd].
    apply length_map.
  - intros k. rewrite Hnames. apply column_names_In.
  - exact Hcell.
  - intros recs i page props k p Hflat Hi Hprops Hnd Hin.
    destruct (mapM_nth _ _ Hflat _ Hi) as (r & Hr & Hpage).
    destruct (@flatten_page_lookup _ _ _ _ _ Hprops Hnd Hpage Hin) as (x & Hx & Hl).
    exists x. split; [exact Hx|].
    rewrite (Hcell k i r); [rewrite Hl; reflexivity| |exact Hr].
    apply has_column_pd_DataFrame. exists r. split.
    + eapply nth_error_In. exact Hr.
    + unfold has_key. rewrite Hl. reflexivity.
  - intros df Hwf. unfold coerce.
    assert (Hexp : well_formed (coerce_expiration to_datetime df)).
    { unfold coerce_expiration. destruct (has_column "Expiration" df) eqn:E;
        [|exact Hwf].
      apply well_formed_set_column; [exact Hwf|].
      unfold to_datetime_series. rewrite length_map.
      apply well_formed_get_column; assumption. }
    unfold coerce_profit_loss.
    destruct (has_column "Profit/Loss" (coerce_expiration to_datetime df)) eqn:E;
      cbn [andb]; [|exact Hexp].
    destruct (is_object _); [|exact Hexp].
    apply well_formed_set_column; [exact Hexp|].
    rewrite length_map. apply well_formed_get_column; assumption.
Qed.

(** * Further properties of the aggregation *)

Lemma sum_skipna_total (vs : list (option Q)) : sum_skipna vs == total vs.
Proof.
  unfold sum_skipna.
  assert (H : forall acc,
             fold_left (fun a v => match v with Some q => a + q | None => a end) vs acc
             == acc + total vs).
  { induction vs as [|[q|] vs IH]; intros acc; cbn [fold_left total].
    - ring.
    - rewrite IH. ring.
    - apply IH. }
  rewrite H. ring.
Qed.

Lemma total_group_values_cons (k k0 : Z) (v0 : option Q) rs :
  total (group_values k ((k0, v0) :: rs))
  == (if (k0 =? k)%Z then total [v0] else 0) + total (group_values k rs).
Proof.
  unfold group_values. cbn [filter fst].
  destruct (k0 =? k)%Z; cbn [map snd total].
  - destruct v0; ring.
  - ring.
Qed.

Lemma sum_over_eq (ks : list Z) (f g : Z -> Q) :
  (forall k, f k == g k) -> sum_over ks f == sum_over ks g.
Proof.
  intros H. induction ks as [|k ks IH]; cbn [sum_over]; [reflexivity|].
  rewrite H, IH. reflexivity.
Qed.

Lemma sum_over_plus (ks : list Z) (f g : Z -> Q) :
  sum_over ks (fun k => f k + g k) == sum_over ks f + sum_over ks g.
Proof.
  induction ks as [|k ks IH]; cbn [sum_over]; [ring|]. rewrite IH. ring.
Qed.

Lemma sum_over_indicator (ks : list Z) (k0 : Z) (q : Q) :
  NoDup ks ->
  sum_over ks (fun k => if (k0 =? k)%Z then q else 0)
  == if existsb (Z.eqb k0) ks then q else 0.
Proof.
  induction 1 as [|k ks Hnotin Hnd IH]; cbn [sum_over existsb]; [reflexivity|].
  rewrite IH. destruct (Z.eqb_spec k0 k) as [->|Hne]; cbn [orb].
  - assert (E : existsb (Z.eqb k) ks = false).
    { destruct (existsb (Z.eqb k) ks) eqn:E; [|reflexivity].
      apply existsb_exists in E as (x & Hx & Hxk). apply Z.eqb_eq in Hxk.
      subst. contradiction. }
    rewrite E. ring.
  - ring.
Qed.

Lemma sum_over_groups (ks : list Z) (rs : list (Z * option Q)) :
  NoDup ks -> (forall k, In k (map fst rs) -> In k ks) ->
  sum_over ks (fun k => total (group_values k rs)) == total (map snd rs).
Proof.
  intros Hnd. induction rs as [|[k0 v0] rs IH]; intros Hin.
  - cbn [map total]. clear. induction ks as [|k ks IH]; cbn [sum_over]; [reflexivity|].
    rewrite IH. unfold group_values. cbn. ring.
  - rewrite (sum_over_eq ks _ _ (fun k => total_group_values_cons k k0 v0 rs)).
    rewrite sum_over_plus, IH by (intros k Hk; apply Hin; right; exact Hk).
    rewrite (sum_over_indicator k0 (total [v0]) Hnd).
    assert (E : existsb (Z.eqb k0) ks = true).
    { apply existsb_exists. exists k0. split; [|apply Z.eqb_refl].
      apply Hin. left. reflexivity. }
    rewrite E. cbn [map snd total]. destruct v0; ring.
Qed.

Lemma StronglySorted_lt_NoDup (l : list Z) : StronglySorted Z.lt l -> NoDup l.
Proof.
  induction 1 as [|k l Hs IH Hk]; constructor; [|exact IH].
  intros Hin. rewrite Forall_forall in Hk. specialize (Hk k Hin). lia.
Qed.

Lemma sum_over_points (ks : list Z) (rs : list (Z * option Q)) :
  fold_right Qplus 0 (map Profit_Loss (map (point_of rs) ks))
  == sum_over ks (fun k => total (group_values k rs)).
Proof.
  induction ks as [|k ks IH]; cbn [map fold_right sum_over]; [reflexivity|].
  rewrite IH. cbn [point_of Profit_Loss]. rewrite sum_skipna_total. reflexivity.
Qed.

Lemma total_integral (vs : list (option Q)) :
  forallb integral vs = true -> total vs == inject_Z (integer_total vs).
Proof.
  induction vs as [|[q|] vs IH]; cbn [forallb integral total integer_total];
    intros H.
  - reflexivity.
  - apply andb_prop in H as [Hq Hvs]. apply Pos.eqb_eq in Hq.
    rewrite inject_Z_plus, (IH Hvs).
    assert (E : q == inject_Z (Qnum q))
      by (destruct q as [n d]; cbn in *; subst; reflexivity).
    rewrite <- E. reflexivity.
  - apply IH. exact H.
Qed.

Lemma integer_total_magnitude (vs : list (option Q)) :
  (Z.abs (integer_total vs) <= magnitude vs)%Z.
Proof.
  induction vs as [|[q|] vs IH]; cbn [integer_total magnitude]; lia.
Qed.

Lemma magnitude_nonnegative (vs : list (option Q)) : (0 <= magnitude vs)%Z.
Proof.
  induction vs as [|[q|] vs IH]; cbn [magnitude]; lia.
Qed.

Lemma group_values_within (k : Z) (rs : list (Z * option Q)) :
  (forallb integral (map snd rs) = true ->
   forallb integral (group_values k rs) = true)
  /\ (magnitude (group_values k rs) <= magnitude (map snd rs))%Z.
Proof.
  unfold group_values. induction rs as [|[k0 v0] rs [IH1 IH2]];
    cbn [filter map snd fst forallb magnitude].
  - split; [auto|lia].
  - pose proof (magnitude_nonnegative (map snd rs)) as Hpos.
    destruct (k0 =? k)%Z; cbn [map snd forallb magnitude]; split.
    + intros H. apply andb_prop in H as [H0 H]. rewrite H0, (IH1 H). reflexivity.
    + destruct v0; lia.
    + intros H. apply andb_prop in H as [_ H]. exact (IH1 H).
    + destruct v0; lia.
Qed.

(** X6.  When the Profit/Loss values of the dated rows are integers whose
    absolute values add up to at most 2^53 (so that no float64 or int64
    addition rounds or overflows), the sums of the aggregated points add up
    to the sum of the Profit/Loss values of all rows that have a date: every
    dated row is counted in exactly one point, rows without a date in none;
    and each point's sum is itself an integer within that range. *)
Theorem aggregate_conserves_total (df : DataFrame)
  (Hintegers :
     forallb integral
       (map snd (valid_pairs (get_column "Expiration" df)
                             (get_column "Profit/Loss" df))) = true)
  (Hrange :
     (magnitude (map snd (valid_pairs (get_column "Expiration" df)
                                      (get_column "Profit/Loss" df)))
      <= exact_range)%Z) :
  fold_right Qplus 0 (map Profit_Loss (aggregate df))
  == total (map snd (valid_pairs (get_column "Expiration" df)
                                 (get_column "Profit/Loss" df)))
  /\ (forall p, In p (aggregate df) ->
      exists z, Profit_Loss p == inject_Z z /\ (Z.abs z <= exact_range)%Z).
Proof.
  split.
  - rewrite aggregate_points, sum_over_points.
    apply sum_over_groups.
    + apply StronglySorted_lt_NoDup, group_keys_sorted.
    + intros k Hk. apply group_keys_In. exact Hk.
  - intros p Hp. rewrite aggregate_points in Hp.
    apply in_map_iff in Hp as (k & <- & _). cbn [point_of Profit_Loss].
    set (rs := valid_pairs (get_column "Expiration" df)
                           (get_column "Profit/Loss" df)) in *.
    destruct (group_values_within k rs) as [Hint Hmag].
    exists (integer_total (group_values k rs)). split.
    + rewrite sum_skipna_total. apply total_integral, Hint, Hintegers.
    + pose proof (integer_total_magnitude (group_values k rs)). lia.
Qed.

(** X7.  The dates of the aggregated points are exactly the dates found in
    the Expiration column on rows that also have a Profit/Loss cell, each
    date once; a table without such a row aggregates to no point at all. *)
Theorem aggregate_dates (df : DataFrame) :
  (forall d, In d (map Expiration (aggregate df))
             <-> exists i c,
                 nth_error (get_column "Expiration" df) i = Some (Timestamp d)
                 /\ nth_error (get_column "Profit/Loss" df) i = Some c)
  /\ NoDup (map Expiration (aggregate df))
  /\ ((forall i d, nth_error (get_column "Expiration" df) i <> Some (Timestamp d))
      -> aggregate df = []).
Proof.
  assert (Hdates : forall d, In d (map Expiration (aggregate df))
             <-> exists i c,
                 nth_error (get_column "Expiration" df) i = Some (Timestamp d)
                 /\ nth_error (get_column "Profit/Loss" df) i = Some c).
  { intros d. rewrite aggregate_points, map_map. cbn [point_of Expiration].
    rewrite map_id, group_keys_In, in_map_iff. split.
    - intros ([t v] & <- & Hin). apply valid_pairs_In in Hin as (i & c & H1 & H2 & _).
      exists i, c. auto.
    - intros (i & c & H1 & H2). exists (d, numeric c). split; [reflexivity|].
      apply valid_pairs_In. exists i, c. auto. }
  split; [exact Hdates|]. split.
  - apply StronglySorted_lt_NoDup, aggregate_sorted.
  - intros Hnone. destruct (aggregate df) as [|p ps] eqn:E; [reflexivity|].
    assert (Hin : In (Expiration p) (map Expiration (p :: ps)))
      by (left; reflexivity).
    apply Hdates in Hin as (i & c & H1 & _). elim (Hnone i _ H1).
Qed.

Lemma sum_skipna_nulls (vs : list (option Q)) :
  (forall v, In v vs -> v = None) -> sum_skipna vs = 0.
Proof.
  unfold sum_skipna. generalize 0. induction vs as [|v vs IH]; intros acc H;
    cbn [fold_left]; [reflexivity|].
  rewrite (H v) by (left; reflexivity). apply IH.
  intros v' Hv'. apply H. right. exact Hv'.
Qed.

(** X8.  A date all of whose rows have a Profit/Loss that is null or not a
    number still gets a point: its sum is 0 and its label "$0.00". *)
Theorem null_amounts_sum_to_zero (df : DataFrame) (d : Z)
  (Hdated : In d (map Expiration (aggregate df)))
  (Hnulls : forall i c,
      nth_error (get_column "Expiration" df) i = Some (Timestamp d) ->
      nth_error (get_column "Profit/Loss" df) i = Some c ->
      numeric c = None) :
  In (mkPoint d 0 "$0.00") (aggregate df).
Proof.
  rewrite aggregate_points in *. rewrite map_map in Hdated.
  cbn [point_of Expiration] in Hdated. rewrite map_id in Hdated.
  apply in_map_iff. exists d. split; [|exact Hdated].
  unfold point_of. rewrite sum_skipna_nulls; [reflexivity|].
  intros v Hv. unfold group_values in Hv.
  apply in_map_iff in Hv as ([t v'] & <- & Hin).
  apply filter_In in Hin as [Hin Ht]. cbn [fst snd] in *.
  apply Z.eqb_eq in Ht. subst t.
  apply valid_pairs_In in Hin as (i & c & H1 & H2 & H3).
  rewrite <- H3. eapply Hnulls; eauto.
Qed.

(** * Further properties of the coercion and of the labels *)




Lemma filter_filter (A : Type) (f g : A -> bool) (l : list A) :
  filter f (filter g l) = filter (fun a => g a && f a) l.
Proof.
  induction l as [|a l IH]; [reflexivity|].
  cbn [filter]. destruct (g a); cbn [filter andb]; rewrite IH; reflexivity.
Qed.

Lemma filter_all (A : Type) (f : A -> bool) (l : list A) :
  forallb f l = true -> filter f l = l.
Proof.
  induction l as [|a l IH]; [reflexivity|].
  cbn [forallb filter]. intros H. apply andb_prop in H as [Ha Hl].
  rewrite Ha, (IH Hl). reflexivity.
Qed.

(** X14.  The Profit/Loss coercion removes every "," and every "$" from the
    text of a cell and nothing else: all other characters (a minus sign,
    parentheses, letters) reach the numeric parser in their order. *)
Theorem strip_currency_chars (py_str : cell -> string) (c : cell) :
  list_ascii_of_string (strip_currency py_str c)
  = filter kept_char (list_ascii_of_string (astype_str py_str c))
  /\ forallb kept_char (list_ascii_of_string (strip_currency py_str c)) = true
  /\ (forallb kept_char (list_ascii_of_string (astype_str py_str c)) = true ->
      strip_currency py_str c = astype_str py_str c).
Proof.
  assert (H : list_ascii_of_string (strip_currency py_str c)
              = filter kept_char (list_ascii_of_string (astype_str py_str c))).
  { unfold strip_currency. rewrite !remove_char_filter.
    rewrite !list_ascii_of_string_of_list_ascii, filter_filter. reflexivity. }
  split; [exact H|]. split.
  - rewrite H. apply forallb_forall. intros a Ha.
    apply filter_In in Ha as [_ Ha]. exact Ha.
  - intros Hk. rewrite <- (string_of_list_ascii_of_string (strip_currency py_str c)), H.
    rewrite <- (string_of_list_ascii_of_string (astype_str py_str c)) at 2.
    f_equal. apply filter_all. exact Hk.
Qed.



(** * The outcome of a refresh *)

Ltac outcome_case :=
  repeat split; try tauto; try discriminate;
  try (intros [? ?]; discriminate);
  try (intros [[? ?]|?]; discriminate);
  try (intros ? ?; discriminate);
  try (intros _; left; eexists; reflexivity);
  try (intros _; eexists; reflexivity).

(** X11.  A refresh that comes to an end shows exactly one thing.  It is the
    chart exactly when an aggregation was computed, and then the fetch
    returned a non-empty table with both columns and the chart draws the
    aggregation of the coerced table; the script holds a table exactly when
    the event is neither the configuration warning nor a fetch error. *)
Theorem refresh_outcome
  (to_datetime : list cell -> cell -> option Z) (to_numeric : string -> option Q)
  (is_object : list cell -> bool) (py_str : cell -> string)
  (St : Type) (query : St -> string -> json -> nat -> result json * St)
  (NOTION_TOKEN : option string) (db_id_input : string) (fuel : nat) (s : St)
  (final : session)
  (Hends : app to_datetime to_numeric is_object py_str query NOTION_TOKEN
             db_id_input fuel s = Some final) :
  exists ev,
    events final = [ev]
    /\ ((exists fig, ev = StPlotlyChart fig) <-> agg_by_exp final <> None)
    /\ ((exists e, ev = StError e) \/ ev = StWarning config_message
        <-> pnl_df final = None)
    /\ (forall fig, ev = StPlotlyChart fig ->
        exists df,
          fetch_notion_df query db_id_input fuel s = Some (Ok df)
          /\ empty df = false
          /\ has_column "Expiration" df = true
          /\ has_column "Profit/Loss" df = true
          /\ pnl_df final = Some (coerce to_datetime to_numeric is_object py_str df)
          /\ fig = make_figure
                     (aggregate (coerce to_datetime to_numeric is_object py_str df))).
Proof.
  unfold app in Hends.
  destruct (String.eqb db_id_input "" || falsy_token NOTION_TOKEN).
  { injection Hends as <-. eexists. cbn [events agg_by_exp pnl_df].
    split; [reflexivity|]. outcome_case. }
  destruct (fetch_notion_df query db_id_input fuel s) as [[df|e]|] eqn:Hfetch;
    [| |discriminate].
  2:{ injection Hends as <-. eexists. cbn [events agg_by_exp pnl_df].
      split; [reflexivity|]. outcome_case. }
  injection Hends as <-. unfold present.
  destruct (empty df) eqn:Hempty.
  { eexists. cbn [events agg_by_exp pnl_df].
    split; [reflexivity|]. outcome_case. }
  rewrite !has_column_coerce.
  destruct (has_column "Expiration" df) eqn:Hexp;
    destruct (has_column "Profit/Loss" df) eqn:Hpnl; cbn [andb];
    eexists; cbn [events agg_by_exp pnl_df]; (split; [reflexivity|]);
    outcome_case.
  intros fig H. injection H as <-. exists df. repeat split; auto.
Qed.

(** * The further properties on concrete services and tables *)

Lemma fetch_failure_surfaces_witness :
  exists fuel, forall extra,
    fetch_notion_df (flaky_query (Sim.records 3)) "db" (fuel + extra) tt
    = Some (Err (APIResponseError "rate limited"))
    /\ app Sim.iso_to_datetime Sim.decimal_to_numeric Sim.infer_object
         Sim.py_str_sample (flaky_query (Sim.records 3)) (Some "secret") "db"
         (fuel + extra) tt
       = Some {| events := [StError (APIResponseError "rate limited")];
                 pnl_df := None; agg_by_exp := None |}.
Proof.
  apply (@fetch_failure_surfaces
           Sim.iso_to_datetime Sim.decimal_to_numeric Sim.infer_object
           Sim.py_str_sample unit (flaky_query (Sim.records 3)) "db"
           (Some "secret") tt (APIResponseError "rate limited")).
  - reflexivity.
  - eapply raises_later with (more := JBool true).
    + reflexivity.
    + reflexivity.
    + vm_compute. reflexivity.
    + reflexivity.
    + reflexivity.
    + reflexivity.
    + eapply raises_now. reflexivity.
Defined.

Lemma fetch_stops_at_first_bad_record_witness :
  fetch_notion_df
    (Sim.query [Sim.record 0; record_without_properties; Sim.record 2]) "db"
    (List.length [[Sim.record 0; record_without_properties; Sim.record 2]] + 0)
    tt
  = Some (Err (KeyError (JStr "properties"))).
Proof.
  refine (@fetch_stops_at_first_bad_record
           unit (Sim.query [Sim.record 0; record_without_properties; Sim.record 2])
           "db" tt [[Sim.record 0; record_without_properties; Sim.record 2]]
           [Sim.record 0] record_without_properties [Sim.record 2]
           [expected_row 0] (KeyError (JStr "properties")) _ _ _ _ 0%nat).
  - eapply serves_last; reflexivity.
  - reflexivity.
  - vm_compute. reflexivity.
  - reflexivity.
Defined.

Lemma fetch_one_query_per_page_witness :
  fetch_loop (Sim.query (Sim.records 101)) "db" 1 tt JNull [] = None.
Proof.
  refine (@fetch_one_query_per_page
            unit (Sim.query (Sim.records 101)) "db" tt JNull
            [firstn 100 (Sim.records 101); skipn 100 (Sim.records 101)]
            (map expected_row (seq 0 101)) _ _ 1%nat [] _).
  - eapply serves_more.
    + reflexivity.
    + reflexivity.
    + vm_compute. reflexivity.
    + reflexivity.
    + eapply serves_last.
      * vm_compute. reflexivity.
      * reflexivity.
      * reflexivity.
  - vm_compute. reflexivity.
  - cbn [List.length]. lia.
Defined.

Lemma fetch_queries_only_given_database_witness :
  fetch_notion_df (Sim.query (Sim.records 3)) "db" 2 tt
  = fetch_notion_df (gated_query (Sim.records 3)) "db" 2 tt.
Proof.
  refine (@fetch_queries_only_given_database
            unit (Sim.query (Sim.records 3)) (gated_query (Sim.records 3)) "db"
            _ 2%nat tt).
  intros s c. reflexivity.
Defined.

Lemma flatten_page_row_witness :
  flatten_page (Sim.record 7) = Ok (expected_row 7).
Proof.
  destruct (@flatten_page_row
              [("id", JStr (Sim.cursor_of 7));
               ("properties",
                JObj [("Name", JObj [("type", JStr "title");
                                     ("title", JArr [JObj [("plain_text",
                                                            JStr (Sim.cursor_of 7))]])]);
                      ("Expiration", JObj [("type", JStr "date");
                                           ("date", JObj [("start", JStr "2024-01-05")])]);
                      ("Profit/Loss", JObj [("type", JStr "number");
                                            ("number", JNum (inject_Z (Z.of_nat 7)))])])]
              [("Name", JObj [("type", JStr "title");
                              ("title", JArr [JObj [("plain_text",
                                                     JStr (Sim.cursor_of 7))]])]);
               ("Expiration", JObj [("type", JStr "date");
                                    ("date", JObj [("start", JStr "2024-01-05")])]);
               ("Profit/Loss", JObj [("type", JStr "number");
                                     ("number", JNum (inject_Z (Z.of_nat 7)))])]
              eq_refl) as [Hok _].
  - repeat constructor; cbn; intuition discriminate.
  - destruct (Hok [JStr (Sim.cursor_of 7); JStr "2024-01-05";
                   JNum (inject_Z (Z.of_nat 7))]) as [Hrow _].
    + vm_compute. reflexivity.
    + exact Hrow.
Defined.

(** A table whose only dated row has an amount that is not a number. *)
Lemma null_amounts_sum_to_zero_witness :
  In (mkPoint 1704412800000000000 0 "$0.00")
     (aggregate
        (coerce Sim.iso_to_datetime Sim.decimal_to_numeric Sim.infer_object
           Sim.py_str_sample
           (pd_DataFrame [[("Expiration", JStr "2024-01-05");
                           ("Profit/Loss", JStr "n/a")]]))).
Proof.
  apply null_amounts_sum_to_zero.
  - vm_compute. left. reflexivity.
  - intros i c Hi Hc.
    destruct i as [|[|i]]; vm_compute in Hc; try discriminate.
    injection Hc as <-. reflexivity.
Defined.

Lemma aggregate_conserves_total_witness :
  fold_right Qplus 0
    (map Profit_Loss
       (aggregate
          (coerce Sim.iso_to_datetime Sim.decimal_to_numeric Sim.infer_object
             Sim.py_str_sample (pd_DataFrame example_rows))))
  == 120.
Proof.
  destruct (@aggregate_conserves_total
              (coerce Sim.iso_to_datetime Sim.decimal_to_numeric Sim.infer_object
                 Sim.py_str_sample (pd_DataFrame example_rows)))
    as [Hsum _].
  - vm_compute. reflexivity.
  - vm_compute. discriminate.
  - rewrite Hsum. vm_compute. reflexivity.
Defined.

Lemma refresh_outcome_witness :
  exists ev,
    [StWarning schema_message] = [ev]
    /\ ev = StWarning schema_message.
Proof.
  destruct (@refresh_outcome
              Sim.iso_to_datetime Sim.decimal_to_numeric Sim.infer_object
              Sim.py_str_sample unit (Sim.query [record_without_profit_loss])
              (Some "secret") "db" 1%nat tt
              {| events := [StWarning schema_message];
                 pnl_df :=
                   Some (coerce Sim.iso_to_datetime Sim.decimal_to_numeric
                           Sim.infer_object Sim.py_str_sample
                           (pd_DataFrame [[("Name", JStr "SPY");
                                           ("Expiration", JStr "2024-01-05")]]));
                 agg_by_exp := None |})
    as (ev & Hev & _).
  - vm_compute. reflexivity.
  - exists ev. split; [exact Hev|]. cbn [events] in Hev. congruence.
Defined.
